(** * Ticket triage: a shallow embedding of the triage pipeline

    The development follows the Python sources:
    - [utils/triage.py]  class [TicketTriager] (module [Triage]),
    - [train.py]         the training driver (module [Train]),
    - [db.py]            ticket storage (module [Db]),
    - [api.py]           the create handler (module [Api]).

    Python text is modelled by [string]: a sequence of 8-bit characters read
    as the code points U+0000..U+00FF.  Methods are functions in a small
    state-and-exception monad, so that "raises", "returns" and "mutates" are
    all visible in the statements. *)

From Stdlib Require Import Ascii String NArith ZArith QArith Qcanon List Bool Lia.
From stdpp Require Import base option list gmap strings pretty.

Local Open Scope string_scope.

(** ** Python strings *)

Module PyStr.

(** [str.lower()] on one code point of the range U+0000..U+00FF: the letters
    A-Z and the upper-case letters of the Latin-1 supplement
    (U+00C0..U+00DE, the multiplication sign U+00D7 apart) move up by 32,
    every other code point is kept. *)
Definition char_lower (c : ascii) : ascii :=
  let n := N_of_ascii c in
  if ((65 <=? n) && (n <=? 90)
      || (192 <=? n) && (n <=? 222) && negb (n =? 215))%N
  then ascii_of_N (n + 32)
  else c.

(** [s.lower()] *)
Fixpoint lower (s : string) : string :=
  match s with
  | EmptyString => EmptyString
  | String c s' => String (char_lower c) (lower s')
  end.

(** [t.startswith(kw)] *)
Fixpoint startswith (kw t : string) : bool :=
  match kw, t with
  | EmptyString, _ => true
  | String _ _, EmptyString => false
  | String a kw', String b t' =>
      if Ascii.eqb a b then startswith kw' t' else false
  end.

(** [kw in t] for two strings: [kw] starts at some position of [t]. *)
Fixpoint str_in (kw t : string) : bool :=
  startswith kw t ||
  match t with
  | EmptyString => false
  | String _ t' => str_in kw t'
  end.

(** The mathematical notion the operator decides: [kw] is a contiguous
    substring of [t]. *)
Definition is_substring (kw t : string) : Prop :=
  exists pre post : string, t = pre +:+ kw +:+ post.

(** [any(p(x) for x in xs)] over a list: stops at the first hit. *)
Fixpoint any {A : Type} (p : A -> bool) (xs : list A) : bool :=
  match xs with
  | [] => false
  | x :: xs' => if p x then true else any p xs'
  end.

End PyStr.

(** ** Exceptions, outcomes and the method monad *)

Inductive exn : Type :=
  | AttributeError (attr : string)
  | KeyError (key : string)
  | IndexError
  | TypeError
  | OSError (path : string)
  | UnpicklingError
  | LibraryError (what : string).

Inductive outcome (A : Type) : Type :=
  | Ok (a : A)
  | Raise (e : exn).
Arguments Ok {A} a.
Arguments Raise {A} e.

(** A computation over a mutable state [S] that returns or raises. *)
Definition M (S A : Type) : Type := S -> outcome A * S.

Definition ret {S A : Type} (a : A) : M S A := fun s => (Ok a, s).

Definition bind {S A B : Type} (m : M S A) (k : A -> M S B) : M S B :=
  fun s =>
    match m s with
    | (Ok a, s') => k a s'
    | (Raise e, s') => (Raise e, s')
    end.

Definition raise {S A : Type} (e : exn) : M S A := fun s => (Raise e, s).

Definition get {S : Type} : M S S := fun s => (Ok s, s).
Definition put {S : Type} (s : S) : M S unit := fun _ => (Ok tt, s).
Definition modify {S : Type} (f : S -> S) : M S unit := fun s => (Ok tt, f s).

(** A pure library call that may raise. *)
Definition lift {S A : Type} (r : outcome A) : M S A := fun s => (r, s).

(** Run a computation on a component of the state. *)
Definition zoom {S T A : Type} (proj : S -> T) (upd : T -> S -> S)
    (m : M T A) : M S A :=
  fun s => let (r, t') := m (proj s) in (r, upd t' s).

Declare Scope monad_scope.
Delimit Scope monad_scope with monad.
Notation "'do' x <- m ; k" := (bind m (fun x => k))
  (at level 10, x name, m at level 100, k at level 200) : monad_scope.
Notation "'do' ' pat <- m ; k" :=
  (bind m (fun x => match x with pat => k end))
  (at level 10, pat pattern, m at level 100, k at level 200) : monad_scope.
Notation "'run' m ; k" := (bind m (fun _ => k))
  (at level 10, m at level 100, k at level 200) : monad_scope.
Local Open Scope monad_scope.

(** ** Python values stored in the artifact, and the process environment *)

(** The objects the artifact can hold.  A fitted vectorizer is its
    [transform] method, from a batch of documents to a feature matrix; a
    fitted classifier is its [predict] method, from a feature matrix to one
    label per row.  Both are library calls and may raise.  [PyOpaque] is any
    other object: it has neither method. *)
Inductive pyobj (matrix : Type) : Type :=
  | PyNone
  | PyVectorizer (transform : list string -> outcome matrix)
  | PyClassifier (predict : matrix -> outcome (list string))
  | PyOpaque.
Arguments PyNone {matrix}.
Arguments PyVectorizer {matrix} transform.
Arguments PyClassifier {matrix} predict.
Arguments PyOpaque {matrix}.

(** What [pickle.load] yields: a dictionary with string keys, or some other
    object. *)
Inductive pickled (matrix : Type) : Type :=
  | PDict (d : gmap string (pyobj matrix))
  | PValue (o : pyobj matrix).
Arguments PDict {matrix} d.
Arguments PValue {matrix} o.

(** A pandas data frame: its number of rows and its named columns. *)
Record DataFrame : Type := {
  nrows : nat;
  columns : gmap string (list string)
}.

Inductive fsnode (matrix : Type) : Type :=
  | Directory
  | PickleFile (v : pickled matrix)
  | CsvFile (df : DataFrame)
  | OtherFile.
Arguments Directory {matrix}.
Arguments PickleFile {matrix} v.
Arguments CsvFile {matrix} df.
Arguments OtherFile {matrix}.

(** The environment of the process: the file system by path, and what has
    been printed so far (oldest line first). *)
Record World (matrix : Type) : Type := {
  fs : gmap string (fsnode matrix);
  stdout : list string
}.
Arguments fs {matrix} w.
Arguments stdout {matrix} w.
Arguments Build_World {matrix} fs stdout.

Section WorldOps.
Context {matrix : Type}.

(** [print(line)] *)
Definition print (line : string) : M (World matrix) unit :=
  modify (fun w => {| fs := fs w; stdout := stdout w ++ [line] |}).

(** [os.path.exists(path)] *)
Definition path_exists (path : string) : M (World matrix) bool :=
  do w <- get; ret (bool_decide (is_Some (fs w !! path))).

(** [with open(path, 'rb') as f: pickle.load(f)] *)
Definition pickle_load (path : string) : M (World matrix) (pickled matrix) :=
  do w <- get;
  match fs w !! path with
  | Some (PickleFile v) => ret v
  | Some Directory | None => raise (OSError path)
  | Some (CsvFile _) | Some OtherFile => raise UnpicklingError
  end.
End WorldOps.

(** ** utils/triage.py : class TicketTriager *)

Module Triage.
Import PyStr.

Section Triager.
Context {matrix : Type}.

(** The attributes of a [TicketTriager] instance. *)
Record TicketTriager : Type := {
  model_path : string;
  model : pyobj matrix;
  vectorizer : pyobj matrix
}.

(** What a method can read and write: the instance and the environment. *)
Record Proc : Type := {
  self : TicketTriager;
  world : World matrix
}.

Definition in_world {A : Type} (m : M (World matrix) A) : M Proc A :=
  zoom world (fun w p => {| self := self p; world := w |}) m.

Definition get_self : M Proc TicketTriager :=
  do p <- get; ret (self p).

Definition set_self (t : TicketTriager) : M Proc unit :=
  modify (fun p => {| self := t; world := world p |}).

(** [self.model = o] *)
Definition set_model (o : pyobj matrix) : M Proc unit :=
  do t <- get_self;
  set_self {| model_path := model_path t; model := o;
              vectorizer := vectorizer t |}.

(** [self.vectorizer = o] *)
Definition set_vectorizer (o : pyobj matrix) : M Proc unit :=
  do t <- get_self;
  set_self {| model_path := model_path t; model := model t;
              vectorizer := o |}.

(** [o is None] *)
Definition is_none (o : pyobj matrix) : bool :=
  match o with PyNone => true | _ => false end.

(** [data.get(key)]: [None] for an absent key; only a dictionary has the
    method. *)
Definition data_get (data : pickled matrix) (key : string)
    : M Proc (pyobj matrix) :=
  match data with
  | PDict d => ret (default PyNone (d !! key))
  | PValue _ => raise (AttributeError "get")
  end.

(** [o.transform(docs)] *)
Definition call_transform (o : pyobj matrix) (docs : list string)
    : M Proc matrix :=
  match o with
  | PyVectorizer transform => lift (transform docs)
  | _ => raise (AttributeError "transform")
  end.

(** [o.predict(x)] *)
Definition call_predict (o : pyobj matrix) (x : matrix)
    : M Proc (list string) :=
  match o with
  | PyClassifier predict => lift (predict x)
  | _ => raise (AttributeError "predict")
  end.

(** [labels[0]] *)
Definition index0 (labels : list string) : M Proc string :=
  match labels with
  | [] => raise IndexError
  | c :: _ => ret c
  end.

Definition load_model : M Proc unit :=
  do t <- get_self;
  do found <- in_world (path_exists (model_path t));
  if found then
    do data <- in_world (pickle_load (model_path t));
    do m <- data_get data "model";
    run set_model m;
    do v <- data_get data "vectorizer";
    set_vectorizer v
  else
    in_world (print ("Warning: Model file not found at " +:+ model_path t)).

(** [TicketTriager(model_path)] *)
Definition init (path : string) : M Proc unit :=
  run set_self {| model_path := path; model := PyNone;
                  vectorizer := PyNone |};
  load_model.

Definition predict_category (ticket_text : string) : M Proc string :=
  do t <- get_self;
  if is_none (model t) || is_none (vectorizer t) then
    ret "uncategorized"
  else
    do text_vector <- call_transform (vectorizer t) [ticket_text];
    do labels <- call_predict (model t) text_vector;
    do category <- index0 labels;
    ret category.

Definition high_priority_keywords : list string :=
  ["urgent"; "critical"; "emergency"; "down"; "outage";
   "not working"; "broken"; "security"; "breach"].

Definition medium_priority_keywords : list string :=
  ["issue"; "problem"; "error"; "bug"; "slow";
   "performance"; "help"].

Definition predict_priority (ticket_text : string) : M Proc string :=
  let ticket_lower := lower ticket_text in
  if any (fun keyword => str_in keyword ticket_lower)
         high_priority_keywords then
    ret "high"
  else if any (fun keyword => str_in keyword ticket_lower)
              medium_priority_keywords then
    ret "medium"
  else
    ret "low".

Definition triage_ticket (title description : string)
    : M Proc (gmap string string) :=
  let ticket_text := title +:+ " " +:+ description in
  do category <- predict_category ticket_text;
  do priority <- predict_priority ticket_text;
  ret (<["category" := category]> (<["priority" := priority]> ∅)).

End Triager.
Arguments TicketTriager matrix : clear implicits.
Arguments Proc matrix : clear implicits.

End Triage.

(** ** train.py : the training driver *)

Module Train.

(** [os.path.dirname(p)] for POSIX paths: everything up to the last slash,
    with the trailing slashes of that head removed unless the head consists
    of slashes only. *)
Definition is_slash (c : ascii) : bool := Ascii.eqb c "/"%char.

Fixpoint drop_slashes (cs : list ascii) : list ascii :=
  match cs with
  | c :: cs' => if is_slash c then drop_slashes cs' else cs
  | [] => []
  end.

Fixpoint drop_to_slash (cs : list ascii) : list ascii :=
  match cs with
  | c :: cs' => if is_slash c then cs else drop_to_slash cs'
  | [] => []
  end.

Definition dirname (p : string) : string :=
  let head_rev := drop_to_slash (rev (list_ascii_of_string p)) in
  let head_rev' :=
    if forallb is_slash head_rev then head_rev else drop_slashes head_rev in
  string_of_list_ascii (rev head_rev').

Section Pipeline.
Context {matrix : Type}.

(** The scikit-learn calls of the driver, as the functions of their
    arguments that they are. *)
Variable train_test_split :
  list string -> list string -> Qc -> Z -> list string ->
  outcome ((list string * list string) * (list string * list string)).
Variable tfidf_fit_transform :
  nat -> string -> list string ->
  outcome ((list string -> outcome matrix) * matrix).
Variable multinomial_nb_fit :
  matrix -> list string -> outcome (matrix -> outcome (list string)).
Variable accuracy_score : list string -> list string -> outcome Qc.
Variable classification_report :
  list string -> list string -> outcome string.
(** [f"{x:.4f}"] *)
Variable format_4f : Qc -> string.

(** ["\n"] *)
Definition nl : string := String "010"%char EmptyString.

(** ["=" * 50] *)
Definition rule : string :=
  string_of_list_ascii (repeat "="%char 50).

(** [pd.read_csv(path)] *)
Definition read_csv (path : string) : M (World matrix) DataFrame :=
  do w <- get;
  match fs w !! path with
  | Some (CsvFile df) => ret df
  | Some Directory | None => raise (OSError path)
  | Some (PickleFile _) | Some OtherFile => raise (LibraryError "read_csv")
  end.

Definition load_training_data (data_path : string)
    : M (World matrix) (option DataFrame) :=
  do found <- path_exists data_path;
  if negb found then
    run print ("Error: Training data file not found at " +:+ data_path);
    run print "Please run 'python data/generate_synthetic.py' first to generate synthetic data.";
    ret None
  else
    do df <- read_csv data_path;
    run print ("Loaded " +:+ pretty (nrows df) +:+ " tickets from "
               +:+ data_path);
    ret (Some df).

(** [df[name]] *)
Definition column (df : DataFrame) (name : string)
    : M (World matrix) (list string) :=
  match columns df !! name with
  | Some col => ret col
  | None => raise (KeyError name)
  end.

(** Returns the frame with its new ['text'] column next to [(X, y)]. *)
Definition prepare_features (df : DataFrame)
    : M (World matrix) (DataFrame * (list string * list string)) :=
  do title <- column df "title";
  do description <- column df "description";
  let text := zip_with (fun t d => t +:+ " " +:+ d) title description in
  let df' := {| nrows := nrows df;
                columns := <["text" := text]> (columns df) |} in
  do X <- column df' "text";
  do y <- column df' "category";
  ret (df', (X, y)).

Definition train_model (X_train y_train : list string)
    : M (World matrix)
        ((matrix -> outcome (list string)) * (list string -> outcome matrix)) :=
  do '(vectorizer, X_train_tfidf) <-
    lift (tfidf_fit_transform 1000 "english" X_train);
  do model <- lift (multinomial_nb_fit X_train_tfidf y_train);
  ret (model, vectorizer).

Definition evaluate_model (model : matrix -> outcome (list string))
    (vectorizer : list string -> outcome matrix)
    (X_test y_test : list string) : M (World matrix) unit :=
  do X_test_tfidf <- lift (vectorizer X_test);
  do y_pred <- lift (model X_test_tfidf);
  run print (nl +:+ rule);
  run print "MODEL EVALUATION";
  run print rule;
  do accuracy <- lift (accuracy_score y_test y_pred);
  run print (nl +:+ "Accuracy: " +:+ format_4f accuracy);
  run print (nl +:+ "Classification Report:");
  do report <- lift (classification_report y_test y_pred);
  print report.

(** [os.makedirs(path, exist_ok=True)] *)
Definition makedirs (path : string) : M (World matrix) unit :=
  do w <- get;
  match fs w !! path with
  | Some Directory => ret tt
  | Some _ => raise (OSError path)
  | None =>
      if String.eqb path "" then raise (OSError path)
      else put {| fs := <[path := Directory]> (fs w); stdout := stdout w |}
  end.

(** [with open(path, 'wb') as f: pickle.dump(v, f)] *)
Definition pickle_dump (v : pickled matrix) (path : string)
    : M (World matrix) unit :=
  do w <- get;
  match fs w !! path with
  | Some Directory => raise (OSError path)
  | _ => put {| fs := <[path := PickleFile v]> (fs w); stdout := stdout w |}
  end.

Definition save_model (model : matrix -> outcome (list string))
    (vectorizer : list string -> outcome matrix) (output_path : string)
    : M (World matrix) unit :=
  run makedirs (dirname output_path);
  run pickle_dump
    (PDict (<["model" := PyClassifier model]>
              (<["vectorizer" := PyVectorizer vectorizer]> ∅)))
    output_path;
  print (nl +:+ "Model saved to " +:+ output_path).

Definition main : M (World matrix) unit :=
  run print rule;
  run print "AI TICKET SCHEDULER - MODEL TRAINING";
  run print rule;
  do df <- load_training_data "sample_data/synthetic_tickets.csv";
  match df with
  | None => ret tt
  | Some df =>
      do '(_, (X, y)) <- prepare_features df;
      do '((X_train, X_test), (y_train, y_test)) <-
        lift (train_test_split X y (Q2Qc 0.2) 42 y);
      run print (nl +:+ "Training set size: "
                 +:+ pretty (length X_train));
      run print ("Test set size: " +:+ pretty (length X_test));
      run print (nl +:+ "Training model...");
      do '(model, vectorizer) <- train_model X_train y_train;
      run evaluate_model model vectorizer X_test y_test;
      run save_model model vectorizer "models/triage_model.pkl";
      run print (nl +:+ rule);
      run print "Training completed successfully!";
      print rule
  end.

End Pipeline.
End Train.

(** ** db.py : ticket storage *)

Module Db.

(** A row of the [tickets] table. *)
Record Ticket : Type := {
  id : Z;
  title : string;
  description : string;
  category : option string;
  priority : option string;
  status : option string;
  created_at : Z;
  updated_at : Z
}.

(** The database behind a [DatabaseManager]: the rows of the table, and the
    clock read by [datetime.utcnow], given by its successive readings. *)
Record DatabaseManager : Type := {
  rows : list Ticket;
  utc : nat -> Z;
  ticks : nat
}.

(** [datetime.utcnow()] *)
Definition utcnow : M DatabaseManager Z :=
  do d <- get;
  run put {| rows := rows d; utc := utc d; ticks := S (ticks d) |};
  ret (utc d (ticks d)).

(** The primary key given to a new row: one more than the largest in
    use. *)
Definition next_id (ts : list Ticket) : Z :=
  (1 + fold_right Z.max 0 (map id ts))%Z.

(** The row is added with the column defaults filled in, committed, and
    read back. *)
Definition create_ticket (title description : string)
    (category priority status : option string) : M DatabaseManager Ticket :=
  do created <- utcnow;
  do updated <- utcnow;
  do d <- get;
  let ticket := {| id := next_id (rows d);
                   title := title;
                   description := description;
                   category := category;
                   priority := priority;
                   status := Some (default "open" status);
                   created_at := created;
                   updated_at := updated |} in
  run put {| rows := rows d ++ [ticket]; utc := utc d; ticks := ticks d |};
  ret ticket.

(** [session.query(Ticket).filter(Ticket.id == ticket_id).first()] *)
Definition query_first (ticket_id : Z) (ts : list Ticket) : option Ticket :=
  List.find (fun t => Z.eqb (id t) ticket_id) ts.

Definition get_ticket (ticket_id : Z) : M DatabaseManager (option Ticket) :=
  do d <- get;
  ret (query_first ticket_id (rows d)).


(** The keyword names [update_ticket] is called with: the text columns of
    the table, each of which is an attribute of a [Ticket]. *)
Inductive column : Type :=
  | Title | Description | Category | Priority | Status.

(** [setattr(ticket, key, value)] *)
Definition setattr (t : Ticket) (key : column) (value : string) : Ticket :=
  match key with
  | Title =>
      {| id := id t; title := value; description := description t;
         category := category t; priority := priority t;
         status := status t; created_at := created_at t;
         updated_at := updated_at t |}
  | Description =>
      {| id := id t; title := title t; description := value;
         category := category t; priority := priority t;
         status := status t; created_at := created_at t;
         updated_at := updated_at t |}
  | Category =>
      {| id := id t; title := title t; description := description t;
         category := Some value; priority := priority t;
         status := status t; created_at := created_at t;
         updated_at := updated_at t |}
  | Priority =>
      {| id := id t; title := title t; description := description t;
         category := category t; priority := Some value;
         status := status t; created_at := created_at t;
         updated_at := updated_at t |}
  | Status =>
      {| id := id t; title := title t; description := description t;
         category := category t; priority := priority t;
         status := Some value; created_at := created_at t;
         updated_at := updated_at t |}
  end.

(** [for key, value in kwargs.items(): setattr(ticket, key, value)] *)
Definition setattrs (t : Ticket) (kwargs : list (column * string)) : Ticket :=
  fold_left (fun t kv => setattr t (fst kv) (snd kv)) kwargs t.

(** Whether the flush has anything to write: some column differs. *)
Definition same_columns (a b : Ticket) : bool :=
  String.eqb (title a) (title b)
  && String.eqb (description a) (description b)
  && bool_decide (category a = category b)
  && bool_decide (priority a = priority b)
  && bool_decide (status a = status b).

(** The row of the first ticket with the given key is replaced. *)
Fixpoint replace_first (ticket_id : Z) (new : Ticket) (ts : list Ticket)
    : list Ticket :=
  match ts with
  | [] => []
  | t :: ts' =>
      if Z.eqb (id t) ticket_id then new :: ts'
      else t :: replace_first ticket_id new ts'
  end.

(** On commit an UPDATE is issued only when some column changed, and it is
    then that [onupdate] gives [updated_at] a new reading of the clock. *)
Definition update_ticket (ticket_id : Z) (kwargs : list (column * string))
    : M DatabaseManager (option Ticket) :=
  do d <- get;
  match query_first ticket_id (rows d) with
  | Some ticket =>
      let changed := setattrs ticket kwargs in
      if same_columns ticket changed then ret (Some ticket)
      else
        do now <- utcnow;
        do d <- get;
        let stored :=
          {| id := id changed; title := title changed;
             description := description changed;
             category := category changed; priority := priority changed;
             status := status changed; created_at := created_at changed;
             updated_at := now |} in
        run put {| rows := replace_first ticket_id stored (rows d);
                   utc := utc d; ticks := ticks d |};
        ret (Some stored)
  | None => ret None
  end.

End Db.

(** ** api.py : the create endpoint *)

Module Api.
Import Triage Db.

(** The request body of [POST /tickets]. *)
Record TicketCreate : Type := {
  tc_title : string;
  tc_description : string;
  tc_category : option string;
  tc_priority : option string;
  tc_status : option string
}.

Record TicketResponse : Type := {
  r_id : Z;
  r_title : string;
  r_description : string;
  r_category : option string;
  r_priority : option string;
  r_status : string;
  r_created_at : string;
  r_updated_at : string
}.

Section Endpoint.
Context {matrix : Type}.

(** [str(d)] for a timestamp. *)
Variable str_datetime : Z -> string.

(** The module-level singletons [db_manager] and [triager]. *)
Record App : Type := {
  db_manager : DatabaseManager;
  triager : Proc matrix
}.

Definition in_db {A : Type} (m : M DatabaseManager A) : M App A :=
  zoom db_manager (fun d a => {| db_manager := d; triager := triager a |}) m.

Definition in_triager {A : Type} (m : M (Proc matrix) A) : M App A :=
  zoom triager (fun t a => {| db_manager := db_manager a; triager := t |}) m.

(** [d[key]] *)
Definition getitem (d : gmap string string) (key : string) : M App string :=
  match d !! key with
  | Some v => ret v
  | None => raise (KeyError key)
  end.

(** [TicketResponse(...)]: the [status] field must be a string. *)
Definition ticket_response (t : Ticket) : M App TicketResponse :=
  match status t with
  | Some st =>
      ret {| r_id := id t;
             r_title := title t;
             r_description := description t;
             r_category := category t;
             r_priority := priority t;
             r_status := st;
             r_created_at := str_datetime (created_at t);
             r_updated_at := str_datetime (updated_at t) |}
  | None => raise (LibraryError "ValidationError")
  end.

(** [ticket.category = c] *)
Definition set_category (ticket : TicketCreate) (c : string) : TicketCreate :=
  {| tc_title := tc_title ticket;
     tc_description := tc_description ticket;
     tc_category := Some c;
     tc_priority := tc_priority ticket;
     tc_status := tc_status ticket |}.

(** [ticket.priority = p] *)
Definition set_priority (ticket : TicketCreate) (p : string) : TicketCreate :=
  {| tc_title := tc_title ticket;
     tc_description := tc_description ticket;
     tc_category := tc_category ticket;
     tc_priority := Some p;
     tc_status := tc_status ticket |}.

(** [o is None] *)
Definition is_None {A : Type} (o : option A) : bool :=
  match o with None => true | Some _ => false end.

Definition create_ticket (ticket : TicketCreate) : M App TicketResponse :=
  do ticket <-
    (if is_None (tc_category ticket) || is_None (tc_priority ticket) then
       do triage_result <-
         in_triager
           (triage_ticket (tc_title ticket) (tc_description ticket));
       do ticket <-
         (if is_None (tc_category ticket) then
            do c <- getitem triage_result "category";
            ret (set_category ticket c)
          else ret ticket);
       if is_None (tc_priority ticket) then
         do p <- getitem triage_result "priority";
         ret (set_priority ticket p)
       else ret ticket
     else ret ticket);
  do db_ticket <-
    in_db (Db.create_ticket (tc_title ticket) (tc_description ticket)
             (tc_category ticket) (tc_priority ticket) (tc_status ticket));
  ticket_response db_ticket.

(** The request body of [PUT /tickets/{ticket_id}]. *)
Record TicketUpdate : Type := {
  tu_title : option string;
  tu_description : option string;
  tu_category : option string;
  tu_priority : option string;
  tu_status : option string
}.

(** What a handler hands to the framework: its return value, or the
    [HTTPException] it raised. *)
Inductive reply (A : Type) : Type :=
  | Reply (a : A)
  | HTTPException (status_code : Z) (detail : string).
Arguments Reply {A} a.
Arguments HTTPException {A} status_code detail.



Definition get_ticket (ticket_id : Z) : M App (reply TicketResponse) :=
  do ticket <- in_db (Db.get_ticket ticket_id);
  match ticket with
  | None => ret (HTTPException 404 "Ticket not found")
  | Some t =>
      do r <- ticket_response t;
      ret (Reply r)
  end.

(** [ticket.dict().items()] *)
Definition items (ticket : TicketUpdate) : list (column * option string) :=
  [(Title, tu_title ticket); (Description, tu_description ticket);
   (Category, tu_category ticket); (Priority, tu_priority ticket);
   (Status, tu_status ticket)].

(** [{k: v for k, v in ticket.dict().items() if v is not None}] *)
Fixpoint not_none (kvs : list (column * option string))
    : list (column * string) :=
  match kvs with
  | [] => []
  | (k, Some v) :: kvs' => (k, v) :: not_none kvs'
  | (_, None) :: kvs' => not_none kvs'
  end.

Definition update_ticket (ticket_id : Z) (ticket : TicketUpdate)
    : M App (reply TicketResponse) :=
  let update_data := not_none (items ticket) in
  match update_data with
  | [] => ret (HTTPException 400 "No fields to update")
  | _ :: _ =>
      do updated_ticket <- in_db (Db.update_ticket ticket_id update_data);
      match updated_ticket with
      | None => ret (HTTPException 404 "Ticket not found")
      | Some t =>
          do r <- ticket_response t;
          ret (Reply r)
      end
  end.

Definition triage_ticket_endpoint (title description : string)
    : M App (gmap string string) :=
  do result <- in_triager (triage_ticket title description);
  do category <- getitem result "category";
  do priority <- getitem result "priority";
  ret (<["title" := title]>
         (<["description" := description]>
            (<["predicted_category" := category]>
               (<["predicted_priority" := priority]> ∅)))).

End Endpoint.
Arguments App matrix : clear implicits.
Arguments Reply {A} a.
Arguments HTTPException {A} status_code detail.

End Api.

(** ** The priority heuristic as the specification words it *)

Module Spec.
Import PyStr.

Definition high_keywords : list string :=
  ["urgent"; "critical"; "emergency"; "down"; "outage";
   "not working"; "broken"; "security"; "breach"].

Definition medium_keywords : list string :=
  ["issue"; "problem"; "error"; "bug"; "slow"; "performance"; "help"].

(** The lower-cased text contains one of the keywords as a substring. *)
Definition mentions (keywords : list string) (text : string) : Prop :=
  exists kw : string, In kw keywords /\ is_substring kw (lower text).

(** The three cases of the reference definition, the high one first. *)
Inductive reference_priority (text : string) : string -> Prop :=
  | ref_high :
      mentions high_keywords text ->
      reference_priority text "high"
  | ref_medium :
      ~ mentions high_keywords text ->
      mentions medium_keywords text ->
      reference_priority text "medium"
  | ref_low :
      ~ mentions high_keywords text ->
      ~ mentions medium_keywords text ->
      reference_priority text "low".

End Spec.

(** ** Sample states *)

Module Samples.
Import Triage Db Api.

(** A toy feature matrix: one row per document, holding its length. *)
Definition toy_transform (docs : list string) : outcome (list nat) :=
  Ok (map String.length docs).

(** A toy classifier: short tickets are hardware, long ones software. *)
Definition toy_predict (x : list nat) : outcome (list string) :=
  Ok (map (fun n => if Nat.ltb n 20 then "Hardware" else "Software") x).

(** A library call that always fails. *)
Definition failing {A B : Type} (what : string) (_ : A) : outcome B :=
  Raise (LibraryError what).

Definition artifact_path : string := "models/triage_model.pkl".

Definition empty_world : World (list nat) :=
  {| fs := ∅; stdout := [] |}.

(** An artifact whose dictionary has no "vectorizer" entry. *)
Definition partial_dict : gmap string (pyobj (list nat)) :=
  <["model" := PyClassifier toy_predict]> ∅.

Definition partial_world : World (list nat) :=
  {| fs := <[artifact_path := PickleFile (PDict partial_dict)]> ∅;
     stdout := [] |}.

Definition blank_triager : TicketTriager (list nat) :=
  {| model_path := ""; model := PyNone; vectorizer := PyNone |}.

Definition loaded_triager : TicketTriager (list nat) :=
  {| model_path := artifact_path;
     model := PyClassifier toy_predict;
     vectorizer := PyVectorizer toy_transform |}.

(** A triager whose classifier fails on every call. *)
Definition broken_triager : TicketTriager (list nat) :=
  {| model_path := artifact_path;
     model := PyClassifier (failing "predict");
     vectorizer := PyVectorizer toy_transform |}.

Definition proc_of (t : TicketTriager (list nat)) (w : World (list nat))
    : Proc (list nat) :=
  {| self := t; world := w |}.

Definition empty_db : DatabaseManager :=
  {| rows := []; utc := fun n => Z.of_nat n; ticks := 0 |}.

Definition sample_request (c p : option string) : TicketCreate :=
  {| tc_title := "Printer";
     tc_description := "The printer is broken";
     tc_category := c;
     tc_priority := p;
     tc_status := None |}.

End Samples.

(** ** Sample data for the training driver and the handlers *)

Module MoreSamples.
Import Triage Db Api.

Definition data_path : string := "sample_data/synthetic_tickets.csv".

Definition sample_titles : list string :=
  ["VPN not working"; "Printer paper jam"; "Password reset"].

Definition sample_descriptions : list string :=
  ["VPN keeps dropping."; "Cannot clear the jam."; "I forgot my password."].

Definition sample_labels : list string :=
  ["network"; "hardware"; "account"].

Definition sample_df : DataFrame :=
  {| nrows := 3;
     columns :=
       <["title" := sample_titles]>
         (<["description" := sample_descriptions]>
            (<["category" := sample_labels]> ∅)) |}.

(** A frame without the label column. *)
Definition unlabeled_df : DataFrame :=
  {| nrows := 3;
     columns :=
       <["title" := sample_titles]>
         (<["description" := sample_descriptions]> ∅) |}.

Definition csv_world (df : DataFrame) : World (list nat) :=
  {| fs := <[data_path := CsvFile df]> ∅; stdout := [] |}.

(** A split that puts the first row aside for testing. *)
Definition toy_split (X y : list string) (test_size : Qc) (seed : Z)
    (stratify : list string)
    : outcome ((list string * list string) * (list string * list string)) :=
  Ok ((drop 1 X, take 1 X), (drop 1 y, take 1 y)).


Definition toy_fit_transform (max_features : nat) (stop_words : string)
    (X : list string)
    : outcome ((list string -> outcome (list nat)) * list nat) :=
  Ok (Samples.toy_transform, map String.length X).

Definition toy_nb_fit (X : list nat) (y : list string)
    : outcome (list nat -> outcome (list string)) :=
  Ok Samples.toy_predict.

Definition toy_accuracy (y_true y_pred : list string) : outcome Qc :=
  Ok (Q2Qc 1).

Definition toy_report (y_true y_pred : list string) : outcome string :=
  Ok "report".

Definition toy_format (x : Qc) : string := "1.0000".

(** A table with one stored ticket. *)
Definition stored_ticket : Ticket :=
  {| id := 1; title := "Printer"; description := "Paper jam";
     category := Some "hardware"; priority := Some "low";
     status := Some "open"; created_at := 0; updated_at := 1 |}.

Definition one_ticket_db : DatabaseManager :=
  {| rows := [stored_ticket]; utc := fun n => Z.of_nat n; ticks := 2 |}.

Definition sample_app (d : DatabaseManager) : App (list nat) :=
  {| db_manager := d;
     triager := Samples.proc_of Samples.blank_triager Samples.empty_world |}.

Definition empty_body : TicketUpdate :=
  {| tu_title := None; tu_description := None; tu_category := None;
     tu_priority := None; tu_status := None |}.

(** A body that changes the title and closes the ticket. *)
Definition sample_body : TicketUpdate :=
  {| tu_title := Some "URGENT printer outage"; tu_description := None;
     tu_category := None; tu_priority := None;
     tu_status := Some "resolved" |}.

End MoreSamples.

(** ** Notions used to state further properties *)

Module Notions.
Import Db.

(** The severity order of the three priorities. *)
Definition priority_rank (p : string) : nat :=
  if String.eqb p "high" then 2
  else if String.eqb p "medium" then 1
  else 0.

(** A computation that never changes the file system, whatever it returns
    or raises. *)
Definition keeps_fs {matrix A : Type} (m : M (World matrix) A) : Prop :=
  forall (w w' : World matrix) (r : outcome A),
    m w = (r, w') -> fs w' = fs w.




End Notions.

(** * Properties *)

(** ** Strings *)

Module PyStrFacts.
Import PyStr.

Lemma startswith_spec (kw t : string) :
  startswith kw t = true <-> exists post : string, t = kw +:+ post.
Proof.
  revert t. induction kw as [|a kw IH]; intros t; simpl.
  - split; [intros _; exists t; reflexivity | reflexivity].
  - destruct t as [|b t].
    + split; [discriminate | intros [post H]; discriminate].
    + destruct (Ascii.eqb_spec a b) as [->|Hne].
      * rewrite IH. split; intros [post H]; exists post.
        -- now rewrite H.
        -- now injection H.
      * split; [discriminate |].
        intros [post H]. injection H as Hab _. congruence.
Qed.

Lemma str_in_spec (kw t : string) :
  str_in kw t = true <-> is_substring kw t.
Proof.
  unfold is_substring.
  induction t as [|c t IH]; simpl; rewrite orb_true_iff, startswith_spec.
  - split.
    + intros [[post H]|H]; [|discriminate]. exists "", post. exact H.
    + intros (pre & post & H). left.
      destruct pre; [exists post; exact H | discriminate].
  - rewrite IH. split.
    + intros [[post H]|(pre & post & H)].
      * exists "", post. exact H.
      * exists (String c pre), post. simpl. now rewrite H.
    + intros (pre & post & H). destruct pre as [|c' pre]; simpl in H.
      * left. exists post. exact H.
      * right. injection H as _ H. exists pre, post. exact H.
Qed.

Lemma any_spec {A : Type} (p : A -> bool) (xs : list A) :
  any p xs = true <-> exists x : A, In x xs /\ p x = true.
Proof.
  induction xs as [|x xs IH]; simpl.
  - split; [discriminate | intros (x & [] & _)].
  - destruct (p x) eqn:Hx.
    + split; [intros _; exists x; auto | reflexivity].
    + rewrite IH. split.
      * intros (y & Hy & Hp). exists y. auto.
      * intros (y & [<-|Hy] & Hp); [congruence | exists y; auto].
Qed.

Lemma lower_app (s t : string) : lower (s +:+ t) = lower s +:+ lower t.
Proof. induction s as [|c s IH]; simpl; [reflexivity | now rewrite IH]. Qed.

Lemma lower_empty : lower "" = "".
Proof. reflexivity. Qed.

End PyStrFacts.

(** ** The priority heuristic *)

Module PriorityFacts.
Import PyStr PyStrFacts Triage.

Section Priority.
Context {matrix : Type}.
Implicit Types (st : Proc matrix) (text : string).

Lemma any_mentions (keywords : list string) text :
  any (fun keyword => str_in keyword (lower text)) keywords = true
  <-> Spec.mentions keywords text.
Proof.
  rewrite any_spec. unfold Spec.mentions.
  split; intros (kw & Hin & H); exists kw; split; auto;
    now apply str_in_spec.
Qed.

(** The method returns in every state, leaves the state alone, and its
    value is given by the two keyword tests. *)
Lemma predict_priority_eval text st :
  predict_priority text st =
    (Ok (if any (fun kw => str_in kw (lower text)) high_priority_keywords
         then "high"
         else if any (fun kw => str_in kw (lower text))
                     medium_priority_keywords
              then "medium" else "low"), st).
Proof.
  unfold predict_priority.
  destruct (any _ high_priority_keywords); [reflexivity|].
  destruct (any _ medium_priority_keywords); reflexivity.
Qed.

(** The value does not depend on the state. *)
Lemma predict_priority_value text :
  exists p : string, forall st, predict_priority text st = (Ok p, st).
Proof.
  eexists. intros st. apply predict_priority_eval.
Qed.

Lemma keywords_lower (kw : string) :
  In kw (high_priority_keywords ++ medium_priority_keywords) ->
  lower kw = kw.
Proof.
  simpl. intros H.
  repeat (destruct H as [<-|H]; [reflexivity|]). destruct H.
Qed.

Lemma embedded_mentions (keywords : list string) (kw pre post : string) :
  In kw keywords -> lower kw = kw ->
  Spec.mentions keywords (pre +:+ kw +:+ post).
Proof.
  intros Hin Hlow. exists kw. split; [exact Hin|].
  exists (lower pre), (lower post).
  now rewrite !lower_app, Hlow.
Qed.

(** C1: for every text, [predict_priority] returns exactly the value of
    the reference three-case definition: "high" when the lower-cased text
    contains a high-priority keyword (whatever medium keywords it also
    contains), else "medium" when it contains a medium-priority keyword,
    else "low". *)
Theorem predict_priority_reference text st (p : string) :
  Spec.reference_priority text p <-> predict_priority text st = (Ok p, st).
Proof.
  rewrite predict_priority_eval.
  pose proof (any_mentions high_priority_keywords text) as Hh.
  pose proof (any_mentions medium_priority_keywords text) as Hm.
  change high_priority_keywords with Spec.high_keywords in *.
  change medium_priority_keywords with Spec.medium_keywords in *.
  split.
  - intros [Mh | Nh Mm | Nh Nm].
    + apply Hh in Mh. now rewrite Mh.
    + rewrite <- Hh in Nh. apply not_true_is_false in Nh.
      apply Hm in Mm. now rewrite Nh, Mm.
    + rewrite <- Hh in Nh. rewrite <- Hm in Nm.
      apply not_true_is_false in Nh, Nm. now rewrite Nh, Nm.
  - destruct (any _ Spec.high_keywords) eqn:Eh.
    { intros H. injection H as <-. apply Spec.ref_high. now apply Hh. }
    assert (~ Spec.mentions Spec.high_keywords text) as Nh.
    { intros H. apply Hh in H. discriminate. }
    destruct (any _ Spec.medium_keywords) eqn:Em.
    { intros H. injection H as <-. apply Spec.ref_medium; [exact Nh|].
      now apply Hm. }
    intros H. injection H as <-. apply Spec.ref_low; [exact Nh|].
    intros H. apply Hm in H. discriminate.
Qed.

(** C4: [predict_priority] is total: on every text, the empty one
    included, it returns (it does not raise) one of "low", "medium" and
    "high"; on the empty text it returns "low". *)
Theorem predict_priority_total text st :
  (exists p : string,
      predict_priority text st = (Ok p, st)
      /\ (p = "low" \/ p = "medium" \/ p = "high"))
  /\ predict_priority "" st = (Ok "low", st).
Proof.
  split; [|reflexivity].
  rewrite predict_priority_eval.
  destruct (any _ high_priority_keywords); [eauto|].
  destruct (any _ medium_priority_keywords); eauto.
Qed.

(** C9: matching is plain substring containment, so a keyword inside
    another word counts: "download" and "shutdown" are rated "high" and
    "debug" is rated "medium"; any text with a high-priority keyword
    embedded anywhere is rated "high", and any text with a
    medium-priority keyword embedded anywhere is rated "medium" or
    higher, never "low". *)
Theorem embedded_keyword_triggers st :
  predict_priority "download" st = (Ok "high", st)
  /\ predict_priority "shutdown" st = (Ok "high", st)
  /\ predict_priority "debug" st = (Ok "medium", st)
  /\ Forall (fun kw => forall pre post : string,
               predict_priority (pre +:+ kw +:+ post) st = (Ok "high", st))
            high_priority_keywords
  /\ Forall (fun kw => forall pre post : string,
               predict_priority (pre +:+ kw +:+ post) st = (Ok "medium", st)
               \/ predict_priority (pre +:+ kw +:+ post) st = (Ok "high", st))
            medium_priority_keywords.
Proof.
  split; [reflexivity|]. split; [reflexivity|]. split; [reflexivity|].
  split; apply List.Forall_forall; intros kw Hin pre post.
  - assert (Spec.mentions high_priority_keywords (pre +:+ kw +:+ post))
      as Hh.
    { apply embedded_mentions; [exact Hin|].
      apply keywords_lower, in_or_app. now left. }
    rewrite predict_priority_eval.
    apply any_mentions in Hh. now rewrite Hh.
  - assert (Spec.mentions Spec.medium_keywords (pre +:+ kw +:+ post)) as Hm.
    { apply embedded_mentions; [exact Hin|].
      apply keywords_lower, in_or_app. now right. }
    rewrite predict_priority_eval.
    destruct (any _ high_priority_keywords); [now right|].
    apply (any_mentions medium_priority_keywords) in Hm.
    rewrite Hm. now left.
Qed.

End Priority.

(** The examples of the specification. *)
Example priority_urgent_issue :
  fst (predict_priority "urgent issue with printer"
         (Samples.proc_of Samples.blank_triager Samples.empty_world))
  = Ok "high".
Proof. reflexivity. Qed.

Example priority_login_bug :
  fst (predict_priority "there is a bug in the login page"
         (Samples.proc_of Samples.blank_triager Samples.empty_world))
  = Ok "medium".
Proof. reflexivity. Qed.

Example priority_desk_location :
  fst (predict_priority "please update my desk location"
         (Samples.proc_of Samples.blank_triager Samples.empty_world))
  = Ok "low".
Proof. reflexivity. Qed.

Example priority_upper_case :
  fst (predict_priority "SERVER OUTAGE"
         (Samples.proc_of Samples.blank_triager Samples.empty_world))
  = Ok "high".
Proof. reflexivity. Qed.

End PriorityFacts.

(** ** Category prediction and the artifact *)

Module CategoryFacts.
Import PyStr Triage.

(** Unfolds the monad operations in the goal. *)
Ltac monad_unfold :=
  unfold bind, ret, raise, get, put, modify, lift, zoom in *; simpl in *.

Section Category.
Context {matrix : Type}.
Implicit Types (st : Proc matrix) (text : string).

(** What the sentinel branch of [predict_category] needs. *)
Lemma predict_category_sentinel text st :
  model (self st) = PyNone \/ vectorizer (self st) = PyNone ->
  predict_category text st = (Ok "uncategorized", st).
Proof.
  intros H. unfold predict_category, get_self. monad_unfold.
  destruct H as [-> | ->]; simpl; [reflexivity|].
  now rewrite orb_true_r.
Qed.

(** [predict_category] never writes the instance or the environment. *)
Lemma predict_category_frame text st :
  snd (predict_category text st) = st.
Proof.
  unfold predict_category, get_self, call_transform, call_predict, index0.
  monad_unfold.
  destruct (is_none (model (self st)) || is_none (vectorizer (self st)));
    [reflexivity|].
  destruct (vectorizer (self st)) as [|transform| |]; try reflexivity.
  simpl. destruct (transform [text]) as [x|e]; [|reflexivity].
  destruct (model (self st)) as [| |predict|]; try reflexivity.
  simpl. destruct (predict x) as [[|c labels]|e]; reflexivity.
Qed.

(** The constructor on a path with no file: a warning is printed and both
    attributes stay [None]. *)
Lemma init_missing (path : string) st :
  fs (world st) !! path = None ->
  init path st =
    (Ok tt,
     {| self := {| model_path := path; model := PyNone;
                   vectorizer := PyNone |};
        world := {| fs := fs (world st);
                    stdout := stdout (world st) ++
                      ["Warning: Model file not found at " +:+ path] |} |}).
Proof.
  intros H. unfold init, load_model, set_self, get_self, in_world,
    path_exists, print.
  monad_unfold. repeat (rewrite H; simpl). reflexivity.
Qed.

(** The constructor on a pickled dictionary: both entries are read with
    [get]. *)
Lemma init_dict (path : string) (d : gmap string (pyobj matrix)) st :
  fs (world st) !! path = Some (PickleFile (PDict d)) ->
  init path st =
    (Ok tt,
     {| self := {| model_path := path;
                   model := default PyNone (d !! "model");
                   vectorizer := default PyNone (d !! "vectorizer") |};
        world := world st |}).
Proof.
  intros H. unfold init, load_model, set_model, set_vectorizer, set_self,
    get_self, in_world, path_exists, pickle_load, data_get.
  monad_unfold. repeat (rewrite H; simpl). reflexivity.
Qed.

(** [triage_ticket] in terms of the two predictions, both taken in the
    state of the call. *)
Lemma triage_ticket_eval (title description : string) st :
  triage_ticket title description st =
    (match fst (predict_category (title +:+ " " +:+ description) st),
           fst (predict_priority (title +:+ " " +:+ description) st) with
     | Ok c, Ok p => Ok (<["category" := c]> (<["priority" := p]> ∅))
     | Raise e, _ => Raise e
     | Ok _, Raise e => Raise e
     end, st).
Proof.
  unfold triage_ticket.
  pose proof (predict_category_frame (title +:+ " " +:+ description) st)
    as Hfr.
  unfold bind.
  destruct (predict_category (title +:+ " " +:+ description) st)
    as [[c|e] st1]; simpl in *; subst st1; [|reflexivity].
  now rewrite PriorityFacts.predict_priority_eval.
Qed.

(** C2: when no file exists at the configured path, constructing the
    triager succeeds with both attributes left at [None]; from then on
    [predict_category] returns "uncategorized" on every text without
    raising, and [predict_priority] gives what it gives in any other
    state of the triager. *)
Theorem missing_artifact_uncategorized (path : string) st text :
  fs (world st) !! path = None ->
  exists st' : Proc matrix,
    init path st = (Ok tt, st')
    /\ model (self st') = PyNone
    /\ vectorizer (self st') = PyNone
    /\ predict_category text st' = (Ok "uncategorized", st')
    /\ (forall st0 : Proc matrix,
          fst (predict_priority text st') = fst (predict_priority text st0)).
Proof.
  intros H. eexists. split; [apply init_missing, H|].
  split; [reflexivity|]. split; [reflexivity|].
  split; [apply predict_category_sentinel; now left|].
  intros st0. now rewrite !PriorityFacts.predict_priority_eval.
Qed.

(** C8: when the artifact is a pickled dictionary in which the "model"
    entry or the "vectorizer" entry is absent or [None], constructing the
    triager succeeds and [predict_category] returns "uncategorized" on
    every text without raising. *)
Theorem partial_artifact_uncategorized (path : string)
    (d : gmap string (pyobj matrix)) st text :
  fs (world st) !! path = Some (PickleFile (PDict d)) ->
  d !! "model" = None \/ d !! "model" = Some PyNone
  \/ d !! "vectorizer" = None \/ d !! "vectorizer" = Some PyNone ->
  exists st' : Proc matrix,
    init path st = (Ok tt, st')
    /\ predict_category text st' = (Ok "uncategorized", st').
Proof.
  intros Hfile Hd. eexists. split; [apply init_dict, Hfile|].
  apply predict_category_sentinel. simpl.
  destruct Hd as [-> | [-> | [-> | ->]]]; auto.
Qed.

(** C5: with a fitted vectorizer and a fitted classifier loaded, two
    calls of [predict_category] on the same text, one after the other,
    give the same outcome, namely the first label the classifier predicts
    for the vectorized text, and leave the triager and its environment as
    they were. *)
Theorem predict_category_deterministic text st
    (transform : list string -> outcome matrix)
    (predict : matrix -> outcome (list string)) :
  vectorizer (self st) = PyVectorizer transform ->
  model (self st) = PyClassifier predict ->
  let (r1, st1) := predict_category text st in
  let (r2, st2) := predict_category text st1 in
  r1 = r2 /\ st1 = st /\ st2 = st
  /\ r1 = match transform [text] with
          | Ok x => match predict x with
                    | Ok (c :: _) => Ok c
                    | Ok [] => Raise IndexError
                    | Raise e => Raise e
                    end
          | Raise e => Raise e
          end.
Proof.
  intros Hv Hm.
  assert (predict_category text st =
          (match transform [text] with
           | Ok x => match predict x with
                     | Ok (c :: _) => Ok c
                     | Ok [] => Raise IndexError
                     | Raise e => Raise e
                     end
           | Raise e => Raise e
           end, st)) as E.
  { unfold predict_category, get_self, call_transform, call_predict, index0.
    monad_unfold. rewrite Hv, Hm. simpl.
    destruct (transform [text]) as [x|e]; [|reflexivity].
    destruct (predict x) as [[|c labels]|e]; reflexivity. }
  rewrite E, E. auto.
Qed.

(** C3: [triage_ticket] runs both predictions on the title and the
    description joined by one space, each from the same state: when the
    category prediction returns, the result is the dictionary with exactly
    the keys "category" and "priority", holding what [predict_category]
    and [predict_priority] return on that text; when the category
    prediction raises, [triage_ticket] raises the same exception.  The
    state is left as it was. *)
Theorem triage_ticket_composition (title description : string) st :
  let text := title +:+ " " +:+ description in
  match predict_category text st with
  | (Ok c, _) =>
      exists (p : string) (r : gmap string string),
        predict_priority text st = (Ok p, st)
        /\ triage_ticket title description st = (Ok r, st)
        /\ r !! "category" = Some c
        /\ r !! "priority" = Some p
        /\ dom r = {[ "category"; "priority" ]}
  | (Raise e, _) =>
      triage_ticket title description st = (Raise e, st)
  end.
Proof.
  intros text. rewrite triage_ticket_eval. fold text.
  rewrite PriorityFacts.predict_priority_eval.
  destruct (predict_category text st) as [[c|e] st1]; simpl; [|reflexivity].
  eexists. eexists. split; [reflexivity|]. split; [reflexivity|].
  split; [now rewrite lookup_insert_eq|].
  split; [rewrite lookup_insert_ne by done; now rewrite lookup_insert_eq|].
  rewrite !dom_insert_L, dom_empty_L. set_solver.
Qed.

End Category.

Lemma missing_artifact_uncategorized_witness :
  fs (world (Samples.proc_of Samples.blank_triager Samples.empty_world))
    !! Samples.artifact_path = None
  /\ exists st' : Proc (list nat),
      init Samples.artifact_path
        (Samples.proc_of Samples.blank_triager Samples.empty_world)
      = (Ok tt, st')
      /\ model (self st') = PyNone
      /\ vectorizer (self st') = PyNone
      /\ predict_category "printer is broken" st' = (Ok "uncategorized", st')
      /\ (forall st0 : Proc (list nat),
            fst (predict_priority "printer is broken" st')
            = fst (predict_priority "printer is broken" st0)).
Proof.
  split; [reflexivity|].
  apply (missing_artifact_uncategorized Samples.artifact_path
           (Samples.proc_of Samples.blank_triager Samples.empty_world)
           "printer is broken").
  reflexivity.
Defined.

Lemma partial_artifact_uncategorized_witness :
  fs (world (Samples.proc_of Samples.blank_triager Samples.partial_world))
    !! Samples.artifact_path
  = Some (PickleFile (PDict Samples.partial_dict))
  /\ Samples.partial_dict !! "vectorizer" = None
  /\ exists st' : Proc (list nat),
      init Samples.artifact_path
        (Samples.proc_of Samples.blank_triager Samples.partial_world)
      = (Ok tt, st')
      /\ predict_category "printer is broken" st' = (Ok "uncategorized", st').
Proof.
  split; [reflexivity|]. split; [reflexivity|].
  apply (partial_artifact_uncategorized Samples.artifact_path
           Samples.partial_dict
           (Samples.proc_of Samples.blank_triager Samples.partial_world)
           "printer is broken").
  - reflexivity.
  - right. right. left. reflexivity.
Defined.

Lemma predict_category_deterministic_witness :
  let st := Samples.proc_of Samples.loaded_triager Samples.empty_world in
  let (r1, st1) := predict_category "printer is broken" st in
  let (r2, st2) := predict_category "printer is broken" st1 in
  r1 = r2 /\ st1 = st /\ st2 = st /\ r1 = Ok "Hardware".
Proof.
  exact (predict_category_deterministic "printer is broken"
           (Samples.proc_of Samples.loaded_triager Samples.empty_world)
           Samples.toy_transform Samples.toy_predict eq_refl eq_refl).
Defined.

(** A fitted pair at work, and a pair that fails: [triage_ticket] returns
    both predictions in the first case and raises in the second. *)
Example triage_ticket_loaded :
  fst (triage_ticket "Printer" "The printer is broken"
         (Samples.proc_of Samples.loaded_triager Samples.empty_world))
  = Ok (<["category" := "Software"]> (<["priority" := "high"]> ∅)).
Proof. reflexivity. Qed.

Example triage_ticket_broken :
  fst (triage_ticket "Printer" "The printer is broken"
         (Samples.proc_of Samples.broken_triager Samples.empty_world))
  = Raise (LibraryError "predict").
Proof. reflexivity. Qed.

End CategoryFacts.

(** ** The training driver on a missing input file *)

Module TrainFacts.
Import Train.
Import CategoryFacts.

Section Driver.
Context {matrix : Type}.
Variable train_test_split :
  list string -> list string -> Qc -> Z -> list string ->
  outcome ((list string * list string) * (list string * list string)).
Variable tfidf_fit_transform :
  nat -> string -> list string ->
  outcome ((list string -> outcome matrix) * matrix).
Variable multinomial_nb_fit :
  matrix -> list string -> outcome (matrix -> outcome (list string)).
Variable accuracy_score : list string -> list string -> outcome Qc.
Variable classification_report :
  list string -> list string -> outcome string.
Variable format_4f : Qc -> string.

Lemma load_training_data_missing (data_path : string) (w : World matrix) :
  fs w !! data_path = None ->
  load_training_data data_path w =
    (Ok None,
     {| fs := fs w;
        stdout := stdout w ++
          ["Error: Training data file not found at " +:+ data_path;
           "Please run 'python data/generate_synthetic.py' first to generate synthetic data."] |}).
Proof.
  intros H. unfold load_training_data, path_exists, print.
  monad_unfold. rewrite H. simpl. now rewrite <- app_assoc.
Qed.

(** C7: when no file exists at the training-data path,
    [load_training_data] prints the two error lines and returns [None],
    and [main] returns right after: whatever the library calls would do,
    nothing is fitted or evaluated, the output holds the banner and the
    two error lines only, and the file system is as before, so no
    artifact has been written. *)
Theorem main_missing_input (w : World matrix) :
  fs w !! "sample_data/synthetic_tickets.csv" = None ->
  load_training_data "sample_data/synthetic_tickets.csv" w =
    (Ok None,
     {| fs := fs w;
        stdout := stdout w ++
          ["Error: Training data file not found at sample_data/synthetic_tickets.csv";
           "Please run 'python data/generate_synthetic.py' first to generate synthetic data."] |})
  /\ main train_test_split tfidf_fit_transform multinomial_nb_fit
          accuracy_score classification_report format_4f w =
    (Ok tt,
     {| fs := fs w;
        stdout := stdout w ++
          ["==================================================";
           "AI TICKET SCHEDULER - MODEL TRAINING";
           "==================================================";
           "Error: Training data file not found at sample_data/synthetic_tickets.csv";
           "Please run 'python data/generate_synthetic.py' first to generate synthetic data."] |}).
Proof.
  intros H. split; [now apply load_training_data_missing|].
  unfold main. unfold bind at 1 2 3. unfold print at 1 2 3, modify. simpl.
  unfold bind. rewrite load_training_data_missing by exact H.
  unfold ret. simpl. now rewrite <- !app_assoc.
Qed.

End Driver.

Example dirname_default : dirname "models/triage_model.pkl" = "models".
Proof. reflexivity. Qed.

Example dirname_nested : dirname "a/b//c.pkl" = "a/b".
Proof. reflexivity. Qed.

Example dirname_root : dirname "/c.pkl" = "/".
Proof. reflexivity. Qed.

Example dirname_bare : dirname "c.pkl" = "".
Proof. reflexivity. Qed.

Lemma main_missing_input_witness :
  fs Samples.empty_world !! "sample_data/synthetic_tickets.csv" = None
  /\ main (matrix := list nat)
        (fun _ _ _ _ _ => Raise (LibraryError "train_test_split"))
        (fun _ _ _ => Raise (LibraryError "fit_transform"))
        (fun _ _ => Raise (LibraryError "fit"))
        (fun _ _ => Raise (LibraryError "accuracy_score"))
        (fun _ _ => Raise (LibraryError "classification_report"))
        (fun _ => "")
        Samples.empty_world
      = (Ok tt,
         {| fs := ∅;
            stdout :=
              ["==================================================";
               "AI TICKET SCHEDULER - MODEL TRAINING";
               "==================================================";
               "Error: Training data file not found at sample_data/synthetic_tickets.csv";
               "Please run 'python data/generate_synthetic.py' first to generate synthetic data."] |}).
Proof.
  split; [reflexivity|].
  apply (main_missing_input
           (fun _ _ _ _ _ => Raise (LibraryError "train_test_split"))
           (fun _ _ _ => Raise (LibraryError "fit_transform"))
           (fun _ _ => Raise (LibraryError "fit"))
           (fun _ _ => Raise (LibraryError "accuracy_score"))
           (fun _ _ => Raise (LibraryError "classification_report"))
           (fun _ => "")
           Samples.empty_world).
  reflexivity.
Defined.

End TrainFacts.

(** ** The create endpoint *)

Module ApiFacts.
Import Triage Db Api.
Import CategoryFacts.

Section Create.
Context {matrix : Type}.
Variable str_datetime : Z -> string.
Implicit Types (req : TicketCreate) (db : DatabaseManager).
Implicit Types (tr : Proc matrix).

(** Storing a ticket and building the response: a row is appended that
    carries the category and priority it was given; the triager is not
    touched. *)
Lemma store_and_respond req db :
  exists (row : Ticket) (resp : TicketResponse)
             (db' : DatabaseManager),
    rows db' = (rows db ++ [row])%list
    /\ category row = tc_category req
    /\ priority row = tc_priority req
    /\ r_category resp = tc_category req
    /\ r_priority resp = tc_priority req
    /\ forall tr,
        bind (in_db (Db.create_ticket (tc_title req) (tc_description req)
                       (tc_category req) (tc_priority req) (tc_status req)))
             (ticket_response str_datetime)
             {| db_manager := db; triager := tr |}
        = (Ok resp, {| db_manager := db'; triager := tr |}).
Proof.
  do 3 eexists. repeat split; cycle 5.
  - intros tr. unfold in_db, Db.create_ticket, utcnow, ticket_response.
    monad_unfold. reflexivity.
  - simpl. reflexivity.
  - reflexivity.
  - reflexivity.
  - reflexivity.
  - reflexivity.
Qed.

(** The handler in two steps: the request object after the auto-triage
    branch, then storing and responding. *)
Lemma create_ticket_eval req db tr (pv : string) :
  (forall st : Proc matrix,
      predict_priority (tc_title req +:+ " " +:+ tc_description req) st
      = (Ok pv, st)) ->
  create_ticket str_datetime req {| db_manager := db; triager := tr |} =
    match
      (if is_None (tc_category req) || is_None (tc_priority req) then
         match fst (predict_category
                      (tc_title req +:+ " " +:+ tc_description req) tr) with
         | Ok c0 =>
             Ok {| tc_title := tc_title req;
                   tc_description := tc_description req;
                   tc_category := Some (default c0 (tc_category req));
                   tc_priority := Some (default pv (tc_priority req));
                   tc_status := tc_status req |}
         | Raise e => Raise e
         end
       else Ok req)
    with
    | Ok t =>
        bind (in_db (Db.create_ticket (tc_title t) (tc_description t)
                       (tc_category t) (tc_priority t) (tc_status t)))
             (ticket_response str_datetime)
             {| db_manager := db; triager := tr |}
    | Raise e => (Raise e, {| db_manager := db; triager := tr |})
    end.
Proof.
  intros Hpv. unfold create_ticket.
  destruct (is_None (tc_category req) || is_None (tc_priority req)) eqn:E.
  - unfold bind at 1 2. unfold in_triager, zoom.
    cbn [triager db_manager].
    rewrite triage_ticket_eval, Hpv. cbn [fst].
    destruct (predict_category _ tr) as [[c0|e] st1]; cbn [fst];
      [|reflexivity].
    unfold getitem.
    destruct req as [t d [c|] [p|] s]; cbn in E; try discriminate;
      cbn [tc_category tc_priority tc_title tc_description tc_status
           is_None set_category set_priority default];
      unfold bind at 1; unfold bind at 1;
      rewrite ?lookup_insert_eq;
      try (rewrite lookup_insert_ne by done; rewrite lookup_insert_eq);
      reflexivity.
  - unfold bind at 1. unfold ret at 1. reflexivity.
Qed.

(** C10: the create handler calls the triager only when the request
    leaves out the category or the priority, and fills in only what was
    left out.  With both supplied, the ticket is stored with both as
    given, whatever the state of the triager, even one in which triage
    would raise.  With one supplied, that one is stored as given and the
    other is the triager's prediction on the title and the description
    joined by a space; if the category prediction raises, so does the
    handler and nothing is stored. *)
Theorem create_ticket_frame req db :
  let text := tc_title req +:+ " " +:+ tc_description req in
  match tc_category req, tc_priority req with
  | Some c, Some p =>
      exists (row : Ticket) (resp : TicketResponse)
             (db' : DatabaseManager),
        rows db' = (rows db ++ [row])%list
        /\ category row = Some c /\ priority row = Some p
        /\ r_category resp = Some c /\ r_priority resp = Some p
        /\ forall tr,
            create_ticket str_datetime req
              {| db_manager := db; triager := tr |}
            = (Ok resp, {| db_manager := db'; triager := tr |})
  | Some c, None =>
      forall tr,
        match predict_category text tr with
        | (Ok _, _) =>
            exists (row : Ticket) (resp : TicketResponse)
                   (db' : DatabaseManager)
                   (p : string),
              predict_priority text tr = (Ok p, tr)
              /\ create_ticket str_datetime req
                   {| db_manager := db; triager := tr |}
                 = (Ok resp, {| db_manager := db'; triager := tr |})
              /\ rows db' = (rows db ++ [row])%list
              /\ category row = Some c /\ priority row = Some p
              /\ r_category resp = Some c /\ r_priority resp = Some p
        | (Raise e, _) =>
            create_ticket str_datetime req
              {| db_manager := db; triager := tr |}
            = (Raise e, {| db_manager := db; triager := tr |})
        end
  | None, Some p =>
      forall tr,
        match predict_category text tr with
        | (Ok c, _) =>
            exists (row : Ticket) (resp : TicketResponse)
             (db' : DatabaseManager),
              create_ticket str_datetime req
                {| db_manager := db; triager := tr |}
              = (Ok resp, {| db_manager := db'; triager := tr |})
              /\ rows db' = (rows db ++ [row])%list
              /\ category row = Some c /\ priority row = Some p
              /\ r_category resp = Some c /\ r_priority resp = Some p
        | (Raise e, _) =>
            create_ticket str_datetime req
              {| db_manager := db; triager := tr |}
            = (Raise e, {| db_manager := db; triager := tr |})
        end
  | None, None =>
      forall tr,
        match predict_category text tr with
        | (Ok c, _) =>
            exists (row : Ticket) (resp : TicketResponse)
                   (db' : DatabaseManager)
                   (p : string),
              predict_priority text tr = (Ok p, tr)
              /\ create_ticket str_datetime req
                   {| db_manager := db; triager := tr |}
                 = (Ok resp, {| db_manager := db'; triager := tr |})
              /\ rows db' = (rows db ++ [row])%list
              /\ category row = Some c /\ priority row = Some p
              /\ r_category resp = Some c /\ r_priority resp = Some p
        | (Raise e, _) =>
            create_ticket str_datetime req
              {| db_manager := db; triager := tr |}
            = (Raise e, {| db_manager := db; triager := tr |})
        end
  end.
Proof.
  intros text.
  destruct (PriorityFacts.predict_priority_value (matrix := matrix) text)
    as [pv Hpv].
  pose proof (fun tr => create_ticket_eval req db tr pv Hpv) as Heval.
  fold text in Heval.
  destruct (tc_category req) as [c|] eqn:Hc;
    destruct (tc_priority req) as [p|] eqn:Hp;
    cbn [is_None orb default] in Heval.
  - destruct (store_and_respond req db)
      as (row & resp & db' & Hrows & Hrc & Hrp & Hsc & Hsp & Hrun).
    rewrite Hc in *. rewrite Hp in *.
    exists row, resp, db'. repeat split; try assumption.
    intros tr. rewrite Heval. apply Hrun.
  - intros tr. specialize (Heval tr).
    destruct (predict_category text tr) as [[c0|e] st1]; cbn [fst] in Heval;
      [|exact Heval].
    match type of Heval with _ = bind (in_db (Db.create_ticket
        (tc_title ?t) _ _ _ _)) _ _ =>
      destruct (store_and_respond t db)
        as (row & resp & db' & Hrows & Hrc & Hrp & Hsc & Hsp & Hrun)
    end.
    exists row, resp, db', pv. rewrite Heval, (Hrun tr).
    repeat split; assumption || apply Hpv.
  - intros tr. specialize (Heval tr).
    destruct (predict_category text tr) as [[c0|e] st1]; cbn [fst] in Heval;
      [|exact Heval].
    match type of Heval with _ = bind (in_db (Db.create_ticket
        (tc_title ?t) _ _ _ _)) _ _ =>
      destruct (store_and_respond t db)
        as (row & resp & db' & Hrows & Hrc & Hrp & Hsc & Hsp & Hrun)
    end.
    exists row, resp, db'. rewrite Heval, (Hrun tr).
    repeat split; assumption.
  - intros tr. specialize (Heval tr).
    destruct (predict_category text tr) as [[c0|e] st1]; cbn [fst] in Heval;
      [|exact Heval].
    match type of Heval with _ = bind (in_db (Db.create_ticket
        (tc_title ?t) _ _ _ _)) _ _ =>
      destruct (store_and_respond t db)
        as (row & resp & db' & Hrows & Hrc & Hrp & Hsc & Hsp & Hrun)
    end.
    exists row, resp, db', pv. rewrite Heval, (Hrun tr).
    repeat split; assumption || apply Hpv.
Qed.

End Create.

(** Both fields supplied: the ticket is stored as given even though the
    triager at hand would raise. *)
Example create_ticket_both_supplied :
  let app := {| db_manager := Samples.empty_db;
                triager := Samples.proc_of Samples.broken_triager
                             Samples.empty_world |} in
  let (r, app') :=
    create_ticket (fun z => pretty z)
      (Samples.sample_request (Some "Network") (Some "low")) app in
  match r with
  | Ok resp =>
      r_category resp = Some "Network" /\ r_priority resp = Some "low"
      /\ map (fun t => (category t, priority t)) (rows (db_manager app'))
         = [(Some "Network", Some "low")]
      /\ triager app' = triager app
  | Raise _ => False
  end.
Proof. cbv zeta. cbn. auto. Qed.

(** Only the category supplied: it is kept, and the priority is the
    heuristic's. *)
Example create_ticket_category_supplied :
  let app := {| db_manager := Samples.empty_db;
                triager := Samples.proc_of Samples.loaded_triager
                             Samples.empty_world |} in
  let (r, app') :=
    create_ticket (fun z => pretty z)
      (Samples.sample_request (Some "Network") None) app in
  match r with
  | Ok resp =>
      r_category resp = Some "Network" /\ r_priority resp = Some "high"
      /\ map (fun t => (category t, priority t)) (rows (db_manager app'))
         = [(Some "Network", Some "high")]
  | Raise _ => False
  end.
Proof. vm_compute. auto. Qed.

End ApiFacts.

(** ** More on the priority heuristic *)

Module PriorityMore.
Import PyStr PyStrFacts Triage Notions.

Lemma char_lower_idem (c : ascii) : char_lower (char_lower c) = char_lower c.
Proof.
  destruct c as [[] [] [] [] [] [] [] []]; reflexivity.
Qed.

Lemma lower_idem (s : string) : lower (lower s) = lower s.
Proof.
  induction s as [|c s IH]; simpl; [reflexivity|].
  now rewrite char_lower_idem, IH.
Qed.

Lemma string_app_assoc (a b c : string) : (a +:+ b) +:+ c = a +:+ b +:+ c.
Proof.
  induction a as [|x a IH]; [reflexivity|].
  change (String x ((a +:+ b) +:+ c) = String x (a +:+ b +:+ c)).
  f_equal. exact IH.
Qed.

Lemma is_substring_extend (kw t pre post : string) :
  is_substring kw t -> is_substring kw (pre +:+ t +:+ post).
Proof.
  intros (a & b & ->). exists (pre +:+ a), (b +:+ post).
  now rewrite !string_app_assoc.
Qed.

Lemma mentions_extend (keywords : list string) (text pre post : string) :
  Spec.mentions keywords text ->
  Spec.mentions keywords (pre +:+ text +:+ post).
Proof.
  intros (kw & Hin & Hsub). exists kw. split; [exact Hin|].
  rewrite !lower_app. now apply is_substring_extend.
Qed.

Section Priority.
Context {matrix : Type}.
Implicit Types (st : Proc matrix) (text : string).

(** X2: Lower-casing the text beforehand does not change its priority. *)
Theorem priority_case_insensitive text st :
  predict_priority (lower text) st = predict_priority text st.
Proof.
  unfold predict_priority. now rewrite lower_idem.
Qed.

(** X1: Surrounding a text with more text never lowers its priority. *)
Theorem priority_monotone text (pre post : string) st :
  exists p q : string,
    predict_priority text st = (Ok p, st)
    /\ predict_priority (pre +:+ text +:+ post) st = (Ok q, st)
    /\ priority_rank p <= priority_rank q.
Proof.
  rewrite !PriorityFacts.predict_priority_eval.
  do 2 eexists. split; [reflexivity|]. split; [reflexivity|].
  pose proof (PriorityFacts.any_mentions high_priority_keywords) as Hh.
  pose proof (PriorityFacts.any_mentions medium_priority_keywords) as Hm.
  destruct (any _ high_priority_keywords) eqn:E1 at 1.
  - apply Hh, (mentions_extend _ _ pre post), Hh in E1. rewrite E1.
    reflexivity.
  - destruct (any _ medium_priority_keywords) eqn:E2 at 1.
    + apply Hm, (mentions_extend _ _ pre post), Hm in E2. rewrite E2.
      destruct (any (fun kw => str_in kw (lower (pre +:+ text +:+ post)))
                    high_priority_keywords); cbv; lia.
    + apply Nat.le_0_l.
Qed.

End Priority.
End PriorityMore.

(** ** Writing the artifact and reading it back *)

Module ArtifactFacts.
Import Triage Train Notions CategoryFacts.

Lemma no_slash_dirname (p : string) :
  forallb (fun c => negb (is_slash c)) (list_ascii_of_string p) = true ->
  dirname p = "".
Proof.
  intros H. unfold dirname.
  assert (forall cs, forallb (fun c => negb (is_slash c)) cs = true ->
                     drop_to_slash cs = []) as Hdrop.
  { induction cs as [|c cs IH]; simpl; [reflexivity|].
    intros Hc. apply andb_true_iff in Hc as [Hc Hcs].
    destruct (is_slash c); [discriminate | now apply IH]. }
  rewrite Hdrop; [reflexivity|].
  rewrite forallb_forall in *. intros c Hc. apply H.
  now apply in_rev.
Qed.

Section Artifact.
Context {matrix : Type}.
Implicit Types (st : Proc matrix) (w : World matrix).

(** What is at the path once [save_model] has returned. *)
Lemma save_model_stored (model : matrix -> outcome (list string))
    (vectorizer : list string -> outcome matrix) (path : string) w w' :
  save_model model vectorizer path w = (Ok tt, w') ->
  fs w' !! path =
    Some (PickleFile
            (PDict (<["model" := PyClassifier model]>
                      (<["vectorizer" := PyVectorizer vectorizer]> ∅)))).
Proof.
  unfold save_model, makedirs, pickle_dump, print. monad_unfold.
  destruct (fs w !! dirname path) as [[]|] eqn:Edir; simpl;
    try (intros H; discriminate H).
  - destruct (fs w !! path) as [[]|] eqn:Epath; simpl; intros H;
      try discriminate H; injection H as <-; simpl;
      apply lookup_insert_eq.
  - destruct (String.eqb (dirname path) ""); simpl;
      [intros H; discriminate H|].
    destruct (<[dirname path:=Directory]> (fs w) !! path) as [[]|] eqn:Epath;
      simpl; intros H; try discriminate H; injection H as <-; simpl;
      apply lookup_insert_eq.
Qed.


(** X4: Round trip: a triager constructed on the path [save_model] has written
    holds the saved classifier and vectorizer, and predicts with them. *)
Theorem save_then_load (model : matrix -> outcome (list string))
    (vectorizer : list string -> outcome matrix) (path text : string)
    w w' (t : TicketTriager matrix) :
  save_model model vectorizer path w = (Ok tt, w') ->
  exists st' : Proc matrix,
    init path {| self := t; world := w' |} = (Ok tt, st')
    /\ st' = {| self := {| model_path := path;
                           model := PyClassifier model;
                           vectorizer := PyVectorizer vectorizer |};
                world := w' |}
    /\ predict_category text st' =
         (match vectorizer [text] with
          | Ok x => match model x with
                    | Ok (c :: _) => Ok c
                    | Ok [] => Raise IndexError
                    | Raise e => Raise e
                    end
          | Raise e => Raise e
          end, st').
Proof.
  intros Hsave. apply save_model_stored in Hsave.
  eexists. split.
  { rewrite (init_dict path _ {| self := t; world := w' |} Hsave).
    reflexivity. }
  rewrite lookup_insert_eq.
  rewrite lookup_insert_ne by done. rewrite lookup_insert_eq.
  split; [reflexivity|].
  unfold predict_category, get_self, call_transform, call_predict, index0.
  monad_unfold.
  destruct (vectorizer [text]) as [x|e]; [|reflexivity].
  destruct (model x) as [[|c labels]|e]; reflexivity.
Qed.

(** X5: An output path without a directory part cannot be saved to: making the
    empty directory name fails, and nothing is written. *)
Theorem save_model_bare_filename (model : matrix -> outcome (list string))
    (vectorizer : list string -> outcome matrix) (path : string) w :
  forallb (fun c => negb (is_slash c)) (list_ascii_of_string path) = true ->
  fs w !! "" = None ->
  save_model model vectorizer path w = (Raise (OSError ""), w).
Proof.
  intros Hpath Hroot. unfold save_model, makedirs.
  rewrite (no_slash_dirname path Hpath). monad_unfold. now rewrite Hroot.
Qed.

End Artifact.


Lemma save_then_load_witness :
  let w' := snd (save_model Samples.toy_predict Samples.toy_transform
                   Samples.artifact_path Samples.empty_world) in
  exists st' : Proc (list nat),
    init Samples.artifact_path
      {| self := Samples.blank_triager; world := w' |} = (Ok tt, st')
    /\ st' = {| self := Samples.loaded_triager; world := w' |}
    /\ predict_category "printer is broken" st' = (Ok "Hardware", st').
Proof.
  exact (save_then_load Samples.toy_predict Samples.toy_transform
           Samples.artifact_path "printer is broken" Samples.empty_world
           (snd (save_model Samples.toy_predict Samples.toy_transform
                   Samples.artifact_path Samples.empty_world))
           Samples.blank_triager eq_refl).
Defined.

Lemma save_model_bare_filename_witness :
  save_model Samples.toy_predict Samples.toy_transform "model.pkl"
    Samples.empty_world
  = (Raise (OSError ""), Samples.empty_world).
Proof.
  apply (save_model_bare_filename Samples.toy_predict Samples.toy_transform
           "model.pkl" Samples.empty_world); reflexivity.
Defined.

End ArtifactFacts.

(** ** The training driver beyond the missing-file case *)

Module TrainMore.
Import Train Notions CategoryFacts.

Section Frames.
Context {matrix : Type}.
Implicit Types (w : World matrix).

Lemma keeps_fs_ret {A : Type} (a : A) : keeps_fs (matrix := matrix) (ret a).
Proof. intros w w' r H. now injection H as _ <-. Qed.

Lemma keeps_fs_raise {A : Type} (e : exn) :
  keeps_fs (matrix := matrix) (A := A) (raise e).
Proof. intros w w' r H. now injection H as _ <-. Qed.

Lemma keeps_fs_lift {A : Type} (r : outcome A) :
  keeps_fs (matrix := matrix) (lift r).
Proof. intros w w' r' H. now injection H as _ <-. Qed.

Lemma keeps_fs_print (line : string) : keeps_fs (matrix := matrix) (print line).
Proof. intros w w' r H. now injection H as _ <-. Qed.






End Frames.

Create HintDb frames.
#[local] Hint Resolve keeps_fs_ret keeps_fs_raise keeps_fs_lift
  keeps_fs_print : frames.


Section Driver.
Context {matrix : Type}.
Variable train_test_split :
  list string -> list string -> Qc -> Z -> list string ->
  outcome ((list string * list string) * (list string * list string)).
Variable tfidf_fit_transform :
  nat -> string -> list string ->
  outcome ((list string -> outcome matrix) * matrix).
Variable multinomial_nb_fit :
  matrix -> list string -> outcome (matrix -> outcome (list string)).
Variable accuracy_score : list string -> list string -> outcome Qc.
Variable classification_report :
  list string -> list string -> outcome string.
Variable format_4f : Qc -> string.
Implicit Types (w : World matrix) (df : DataFrame).

Lemma keeps_fs_path_exists (path : string) :
  keeps_fs (matrix := matrix) (path_exists path).
Proof. intros w w' r H. now injection H as _ <-. Qed.

Lemma keeps_fs_read_csv (path : string) :
  keeps_fs (matrix := matrix) (read_csv path).
Proof.
  intros w w' r. unfold read_csv. monad_unfold.
  destruct (fs w !! path) as [[]|]; intros H; now injection H as _ <-.
Qed.

Lemma keeps_fs_column df (name : string) :
  keeps_fs (matrix := matrix) (column df name).
Proof. unfold column. destruct (columns df !! name); auto with frames. Qed.

#[local] Hint Resolve keeps_fs_path_exists keeps_fs_read_csv
  keeps_fs_column : frames.








Lemma bind_ok {S A B : Type} (m : M S A) (k : A -> M S B) (s s1 : S) (a : A) :
  m s = (Ok a, s1) -> bind m k s = k a s1.
Proof. intros H. unfold bind. now rewrite H. Qed.

Lemma bind_print {B : Type} (line : string) (k : unit -> M (World matrix) B) w :
  bind (print line) k w
  = k tt {| fs := fs w; stdout := (stdout w ++ [line])%list |}.
Proof. reflexivity. Qed.

Lemma bind_lift_ok {A B : Type} (a : A) (k : A -> M (World matrix) B) w :
  bind (lift (Ok a)) k w = k a w.
Proof. reflexivity. Qed.

Lemma load_training_data_found (path : string) df w :
  fs w !! path = Some (CsvFile df) ->
  load_training_data path w =
    (Ok (Some df),
     {| fs := fs w;
        stdout := (stdout w ++
          ["Loaded " +:+ pretty (nrows df) +:+ " tickets from " +:+ path])%list
     |}).
Proof.
  intros H. unfold load_training_data, path_exists, read_csv, print.
  monad_unfold. repeat (rewrite H; simpl). reflexivity.
Qed.

Lemma prepare_features_eval df w :
  prepare_features df w =
    (match columns df !! "title", columns df !! "description",
           columns df !! "category" with
     | None, _, _ => Raise (KeyError "title")
     | Some _, None, _ => Raise (KeyError "description")
     | Some _, Some _, None => Raise (KeyError "category")
     | Some title, Some description, Some y =>
         let X := zip_with (fun t d => t +:+ " " +:+ d) title description in
         Ok ({| nrows := nrows df;
                columns := <["text" := X]> (columns df) |}, (X, y))
     end, w).
Proof.
  unfold prepare_features, column. monad_unfold.
  destruct (columns df !! "title") as [title|]; [|reflexivity]. simpl.
  destruct (columns df !! "description") as [description|]; [|reflexivity].
  simpl. rewrite lookup_insert_eq. simpl.
  rewrite lookup_insert_ne by done.
  destruct (columns df !! "category") as [y|]; reflexivity.
Qed.


Lemma save_model_ok (model : matrix -> outcome (list string))
    (vectorizer : list string -> outcome matrix) (path : string) w :
  fs w !! dirname path = Some Directory
  \/ fs w !! dirname path = None /\ dirname path <> "" ->
  fs w !! path <> Some Directory ->
  dirname path <> path ->
  exists w' : World matrix,
    save_model model vectorizer path w = (Ok tt, w')
    /\ fs w' !! path =
         Some (PickleFile
                 (PDict (<["model" := PyClassifier model]>
                           (<["vectorizer" := PyVectorizer vectorizer]> ∅))))
    /\ forall q : string,
         q <> path -> q <> dirname path -> fs w' !! q = fs w !! q.
Proof.
  intros Hdir Hpath Hne. unfold save_model, makedirs, pickle_dump, print.
  monad_unfold. destruct Hdir as [Hdir | [Hdir Hnonempty]]; rewrite Hdir; simpl.
  - destruct (fs w !! path) as [[]|] eqn:Ep; simpl; try congruence;
      (eexists; split; [reflexivity|]; simpl;
       split; [apply lookup_insert_eq|];
       intros q Hq _; now rewrite lookup_insert_ne by congruence).
  - apply String.eqb_neq in Hnonempty. rewrite Hnonempty. simpl.
    rewrite lookup_insert_ne by exact Hne.
    destruct (fs w !! path) as [[]|] eqn:Ep; simpl; try congruence;
      (eexists; split; [reflexivity|]; simpl;
       split; [apply lookup_insert_eq|];
       intros q Hq Hq'; rewrite !lookup_insert_ne by congruence;
       reflexivity).
Qed.

Lemma train_model_ok (X_train y_train : list string)
    (vectorizer : list string -> outcome matrix)
    (model : matrix -> outcome (list string)) (X_train_tfidf : matrix) w :
  tfidf_fit_transform 1000 "english" X_train
  = Ok (vectorizer, X_train_tfidf) ->
  multinomial_nb_fit X_train_tfidf y_train = Ok model ->
  train_model tfidf_fit_transform multinomial_nb_fit X_train y_train w
  = (Ok (model, vectorizer), w).
Proof.
  intros Hfit Hnb. unfold train_model. rewrite Hfit, bind_lift_ok.
  cbv beta iota. now rewrite Hnb, bind_lift_ok.
Qed.

Lemma evaluate_model_ok (model : matrix -> outcome (list string))
    (vectorizer : list string -> outcome matrix)
    (X_test y_test y_pred : list string) (X_test_tfidf : matrix)
    (accuracy : Qc) (report : string) w :
  vectorizer X_test = Ok X_test_tfidf ->
  model X_test_tfidf = Ok y_pred ->
  accuracy_score y_test y_pred = Ok accuracy ->
  classification_report y_test y_pred = Ok report ->
  exists w' : World matrix,
    evaluate_model accuracy_score classification_report format_4f
      model vectorizer X_test y_test w = (Ok tt, w')
    /\ fs w' = fs w.
Proof.
  intros Hvec Hpred Hacc Hrep. unfold evaluate_model.
  rewrite Hvec, bind_lift_ok, Hpred, bind_lift_ok, !bind_print.
  rewrite Hacc, bind_lift_ok, !bind_print, Hrep, bind_lift_ok.
  eexists. split; reflexivity.
Qed.

(** X7: A complete run: with the data file in place, the three columns present
    and every library call returning, [main] returns, and the artifact path
    then holds the dictionary with the classifier fitted on the training part
    of the split and the vectorizer fitted with it; paths other than the
    artifact and its directory are as before. *)
Theorem main_writes_artifact w (df : DataFrame)
    (title description y X_train X_test y_train y_test y_pred : list string)
    (vectorizer : list string -> outcome matrix)
    (model : matrix -> outcome (list string))
    (X_train_tfidf X_test_tfidf : matrix) (accuracy : Qc) (report : string) :
  fs w !! "sample_data/synthetic_tickets.csv" = Some (CsvFile df) ->
  columns df !! "title" = Some title ->
  columns df !! "description" = Some description ->
  columns df !! "category" = Some y ->
  train_test_split
    (zip_with (fun t d => t +:+ " " +:+ d) title description) y
    (Q2Qc 0.2) 42 y
  = Ok ((X_train, X_test), (y_train, y_test)) ->
  tfidf_fit_transform 1000 "english" X_train
  = Ok (vectorizer, X_train_tfidf) ->
  multinomial_nb_fit X_train_tfidf y_train = Ok model ->
  vectorizer X_test = Ok X_test_tfidf ->
  model X_test_tfidf = Ok y_pred ->
  accuracy_score y_test y_pred = Ok accuracy ->
  classification_report y_test y_pred = Ok report ->
  fs w !! "models" = Some Directory \/ fs w !! "models" = None ->
  fs w !! "models/triage_model.pkl" <> Some Directory ->
  exists w' : World matrix,
    main train_test_split tfidf_fit_transform multinomial_nb_fit
         accuracy_score classification_report format_4f w = (Ok tt, w')
    /\ fs w' !! "models/triage_model.pkl" =
         Some (PickleFile
                 (PDict (<["model" := PyClassifier model]>
                           (<["vectorizer" := PyVectorizer vectorizer]> ∅))))
    /\ forall q : string,
         q <> "models/triage_model.pkl" -> q <> "models" ->
         fs w' !! q = fs w !! q.
Proof.
  intros Hfile Ht Hd Hy Hsplit Hfit Hnb Hvec Hpred Hacc Hrep Hdir Hart.
  unfold main. rewrite !bind_print.
  erewrite bind_ok by (apply load_training_data_found; exact Hfile).
  cbv beta iota.
  erewrite bind_ok by (rewrite prepare_features_eval; cbn [fs];
                       rewrite Ht, Hd, Hy; reflexivity).
  cbv beta iota zeta. rewrite Hsplit, bind_lift_ok.
  cbv beta iota. rewrite !bind_print.
  erewrite bind_ok by (exact (train_model_ok _ _ _ _ _ _ Hfit Hnb)).
  cbv beta iota. cbn [fs stdout].
  match goal with
  | |- exists w', bind _ _ ?w0 = _ /\ _ =>
      destruct (evaluate_model_ok model vectorizer X_test y_test y_pred
                  X_test_tfidf accuracy report w0 Hvec Hpred Hacc Hrep)
        as (w1 & Heval & Hfs1)
  end.
  erewrite bind_ok by exact Heval. cbn [fs] in Hfs1.
  destruct (save_model_ok model vectorizer "models/triage_model.pkl" w1)
    as (w2 & Hsave & Hstored & Hrest).
  - rewrite Hfs1. change (dirname "models/triage_model.pkl") with "models".
    destruct Hdir as [Hdir | Hdir]; [now left | right]. split; [exact Hdir|].
    discriminate.
  - now rewrite Hfs1.
  - vm_compute. discriminate.
  - erewrite bind_ok by exact Hsave. rewrite !bind_print.
    unfold print, modify. eexists. split; [reflexivity|].
    cbn [fs]. split; [exact Hstored|].
    intros q Hq Hq'. rewrite <- Hfs1. now apply Hrest.
Qed.

End Driver.


Lemma main_writes_artifact_witness :
  exists w' : World (list nat),
    main MoreSamples.toy_split MoreSamples.toy_fit_transform
         MoreSamples.toy_nb_fit MoreSamples.toy_accuracy
         MoreSamples.toy_report MoreSamples.toy_format
         (MoreSamples.csv_world MoreSamples.sample_df) = (Ok tt, w')
    /\ fs w' !! "models/triage_model.pkl" =
         Some (PickleFile
                 (PDict (<["model" := PyClassifier Samples.toy_predict]>
                           (<["vectorizer" :=
                                PyVectorizer Samples.toy_transform]> ∅))))
    /\ forall q : string,
         q <> "models/triage_model.pkl" -> q <> "models" ->
         fs w' !! q = fs (MoreSamples.csv_world MoreSamples.sample_df) !! q.
Proof.
  apply (main_writes_artifact MoreSamples.toy_split
           MoreSamples.toy_fit_transform MoreSamples.toy_nb_fit
           MoreSamples.toy_accuracy MoreSamples.toy_report
           MoreSamples.toy_format
           (MoreSamples.csv_world MoreSamples.sample_df)
           MoreSamples.sample_df MoreSamples.sample_titles
           MoreSamples.sample_descriptions MoreSamples.sample_labels
           ["Printer paper jam Cannot clear the jam.";
            "Password reset I forgot my password."]
           ["VPN not working VPN keeps dropping."]
           ["hardware"; "account"] ["network"] ["Software"]
           Samples.toy_transform Samples.toy_predict
           [39; 36] [35] (Q2Qc 1) "report");
    try reflexivity.
  - right. reflexivity.
  - discriminate.
Defined.

End TrainMore.

(** ** The ticket table *)

Module DbFacts.
Import Db Notions CategoryFacts.

Implicit Types (d : DatabaseManager) (t : Ticket) (ts : list Ticket).

Lemma id_lt_next_id ts t : In t ts -> (id t < next_id ts)%Z.
Proof.
  unfold next_id. induction ts as [|u ts IH]; simpl; [tauto|].
  intros [->|H]; [lia|]. specialize (IH H). lia.
Qed.

Lemma query_first_id (i : Z) ts t : query_first i ts = Some t -> id t = i.
Proof.
  unfold query_first. intros H. apply find_some in H as [_ H].
  now apply Z.eqb_eq.
Qed.


Lemma query_first_none (i : Z) ts :
  query_first i ts = None <-> (forall t, In t ts -> id t <> i).
Proof.
  unfold query_first. split.
  - intros H t Hin Hid. apply (find_none _ _ H) in Hin.
    apply Z.eqb_neq in Hin. contradiction.
  - intros H. induction ts as [|u ts IH]; simpl; [reflexivity|].
    destruct (Z.eqb_spec (id u) i) as [E|_].
    + destruct (H u); simpl; auto.
    + apply IH. intros t Hin. apply H. now right.
Qed.

Lemma query_first_app_new (i : Z) ts t :
  query_first i (ts ++ [t]) =
    match query_first i ts with
    | Some u => Some u
    | None => if Z.eqb (id t) i then Some t else None
    end.
Proof.
  unfold query_first. induction ts as [|u ts IH]; simpl; [reflexivity|].
  destruct (Z.eqb (id u) i); [reflexivity | exact IH].
Qed.

Lemma query_first_replace_same (i : Z) (new : Ticket) ts t :
  id new = i -> query_first i ts = Some t ->
  query_first i (replace_first i new ts) = Some new.
Proof.
  intros Hnew. unfold query_first.
  induction ts as [|u ts IH]; simpl; [discriminate|].
  destruct (Z.eqb (id u) i) eqn:E; simpl.
  - intros _. apply Z.eqb_eq in Hnew. now rewrite Hnew.
  - rewrite E. exact IH.
Qed.



Lemma replace_first_length (i : Z) (new : Ticket) ts :
  length (replace_first i new ts) = length ts.
Proof.
  induction ts as [|u ts IH]; simpl; [reflexivity|].
  destruct (Z.eqb (id u) i); simpl; congruence.
Qed.


Lemma setattrs_id t (kwargs : list (column * string)) :
  id (setattrs t kwargs) = id t
  /\ created_at (setattrs t kwargs) = created_at t
  /\ (is_Some (status t) -> is_Some (status (setattrs t kwargs))).
Proof.
  unfold setattrs. revert t.
  induction kwargs as [|[k v] kwargs IH]; intros t; simpl; [auto|].
  destruct (IH (setattr t k v)) as (Hid & Hc & Hs).
  rewrite Hid, Hc. destruct k; simpl in *; repeat split; auto.
  all: intros _; apply Hs; eauto.
Qed.

(** [create_ticket] computed: the new row and the table after it. *)
Lemma db_create_ticket_eval (ti de : string) (c p s : option string) d :
  create_ticket ti de c p s d =
    (let t := {| id := next_id (rows d); title := ti; description := de;
                 category := c; priority := p;
                 status := Some (default "open" s);
                 created_at := utc d (ticks d);
                 updated_at := utc d (S (ticks d)) |} in
     (Ok t, {| rows := rows d ++ [t]; utc := utc d;
               ticks := S (S (ticks d)) |})).
Proof. reflexivity. Qed.

(** X9: Round trip: the ticket [create_ticket] returns gets a key that no row
    had, stores what it was given, with "open" for a missing status, and is
    what [get_ticket] finds under that key afterwards; every other key finds
    what it found before. *)
Theorem create_then_get (ti de : string) (c p s : option string) d :
  exists (t : Ticket) (d' : DatabaseManager),
    create_ticket ti de c p s d = (Ok t, d')
    /\ (forall u, In u (rows d) -> id u <> id t)
    /\ title t = ti /\ description t = de
    /\ category t = c /\ priority t = p
    /\ status t = Some (default "open" s)
    /\ get_ticket (id t) d' = (Ok (Some t), d')
    /\ forall i : Z, i <> id t ->
         fst (get_ticket i d') = fst (get_ticket i d).
Proof.
  rewrite db_create_ticket_eval. cbv zeta. do 2 eexists.
  split; [reflexivity|]. cbn [id title description category priority status].
  assert (forall u, In u (rows d) -> id u <> next_id (rows d)) as Hfresh.
  { intros u Hu. pose proof (id_lt_next_id _ _ Hu). lia. }
  split; [exact Hfresh|]. repeat (split; [reflexivity|]).
  unfold get_ticket. monad_unfold. split.
  - rewrite query_first_app_new.
    rewrite (proj2 (query_first_none _ _) Hfresh). simpl.
    now rewrite Z.eqb_refl.
  - intros i Hi. rewrite query_first_app_new. simpl.
    destruct (query_first i (rows d)); [reflexivity|].
    apply not_eq_sym, Z.eqb_neq in Hi. now rewrite Hi.
Qed.


Lemma same_columns_true (a b : Ticket) :
  same_columns a b = true ->
  title a = title b /\ description a = description b
  /\ category a = category b /\ priority a = priority b
  /\ status a = status b.
Proof.
  unfold same_columns. rewrite !andb_true_iff, !bool_decide_eq_true.
  intros ((((Ht & Hd) & Hc) & Hp) & Hs).
  apply String.eqb_eq in Ht, Hd. auto.
Qed.

(** [update_ticket] on a key that is present. *)
Lemma update_ticket_eval (i : Z) (kwargs : list (column * string)) d t :
  query_first i (rows d) = Some t ->
  update_ticket i kwargs d =
    (let changed := setattrs t kwargs in
     if same_columns t changed then (Ok (Some t), d)
     else
       let stored :=
         {| id := id changed; title := title changed;
            description := description changed;
            category := category changed; priority := priority changed;
            status := status changed; created_at := created_at changed;
            updated_at := utc d (ticks d) |} in
       (Ok (Some stored),
        {| rows := replace_first i stored (rows d); utc := utc d;
           ticks := S (ticks d) |})).
Proof.
  intros H. unfold update_ticket, utcnow. monad_unfold. rewrite H.
  cbv zeta. destruct (same_columns t (setattrs t kwargs)); reflexivity.
Qed.







End DbFacts.

(** ** The other handlers *)

Module ApiMore.
Import Triage Db Api Notions CategoryFacts.

Section Handlers.
Context {matrix : Type}.
Variable str_datetime : Z -> string.
Implicit Types (req : TicketCreate) (db : DatabaseManager).
Implicit Types (tr : Proc matrix) (app : App matrix).

Lemma ticket_response_state (t : Ticket) app :
  snd (ticket_response str_datetime t app) = app.
Proof. unfold ticket_response. now destruct (status t). Qed.

Lemma ticket_response_fields (t : Ticket) (st : string) app :
  status t = Some st ->
  exists resp : TicketResponse,
    ticket_response str_datetime t app = (Ok resp, app)
    /\ r_id resp = id t /\ r_title resp = title t
    /\ r_description resp = description t
    /\ r_category resp = category t /\ r_priority resp = priority t
    /\ r_status resp = st
    /\ r_created_at resp = str_datetime (created_at t)
    /\ r_updated_at resp = str_datetime (updated_at t).
Proof.
  intros H. unfold ticket_response. rewrite H. eexists.
  split; [reflexivity|]. simpl. repeat split; reflexivity.
Qed.

Lemma get_ticket_found (i : Z) (t : Ticket) app :
  query_first i (rows (db_manager app)) = Some t ->
  get_ticket str_datetime i app =
    bind (ticket_response str_datetime t) (fun r => ret (Reply r)) app.
Proof.
  intros H. unfold get_ticket, in_db, zoom, Db.get_ticket.
  unfold bind at 1 2. unfold get, ret at 1. rewrite H. now destruct app.
Qed.

(** Storing a request and then asking for the key of the response. *)
Lemma store_then_get (t : TicketCreate) db tr :
  exists (resp : TicketResponse) (app' : App matrix),
    bind (in_db (Db.create_ticket (tc_title t) (tc_description t)
                   (tc_category t) (tc_priority t) (tc_status t)))
         (ticket_response str_datetime)
         {| db_manager := db; triager := tr |} = (Ok resp, app')
    /\ get_ticket str_datetime (r_id resp) app' = (Ok (Reply resp), app').
Proof.
  unfold in_db, zoom, bind at 1. cbn [db_manager triager].
  rewrite DbFacts.db_create_ticket_eval. cbv zeta.
  unfold ticket_response at 1. cbn [status]. unfold ret at 1.
  do 2 eexists. split; [reflexivity|]. cbn [r_id id].
  unfold get_ticket, in_db, zoom, Db.get_ticket. monad_unfold.
  rewrite DbFacts.query_first_app_new.
  assert (query_first (next_id (rows db)) (rows db) = None) as ->.
  { apply DbFacts.query_first_none. intros u Hu.
    pose proof (DbFacts.id_lt_next_id _ _ Hu). lia. }
  simpl. rewrite Z.eqb_refl. reflexivity.
Qed.

(** X13: Round trip through the API: the response of a successful
    [create_ticket] is exactly what [get_ticket] returns for its id
    afterwards. *)
Theorem api_create_then_get req app (resp : TicketResponse)
    (app' : App matrix) :
  create_ticket str_datetime req app = (Ok resp, app') ->
  get_ticket str_datetime (r_id resp) app' = (Ok (Reply resp), app').
Proof.
  destruct app as [db tr].
  destruct (PriorityFacts.predict_priority_value (matrix := matrix)
              (tc_title req +:+ " " +:+ tc_description req)) as [pv Hpv].
  rewrite (ApiFacts.create_ticket_eval str_datetime req db tr pv Hpv).
  match goal with
  | |- match ?x with _ => _ end = _ -> _ => destruct x as [t|e]
  end; [|discriminate].
  destruct (store_then_get t db tr) as (resp0 & app0 & Hrun & Hget).
  rewrite Hrun. intros H. injection H as <- <-. exact Hget.
Qed.


Lemma setattrs_items (t : Ticket) (body : TicketUpdate) :
  let t' := setattrs t (not_none (items body)) in
  title t' = default (title t) (tu_title body)
  /\ description t' = default (description t) (tu_description body)
  /\ category t' = match tu_category body with
                   | Some c => Some c
                   | None => category t
                   end
  /\ priority t' = match tu_priority body with
                   | Some p => Some p
                   | None => priority t
                   end
  /\ status t' = match tu_status body with
                 | Some s => Some s
                 | None => status t
                 end.
Proof.
  destruct body as [[a|] [b|] [c|] [p|] [s|]]; cbv; auto.
Qed.

Lemma not_none_items_nil (body : TicketUpdate) :
  not_none (items body) = [] <->
  body = {| tu_title := None; tu_description := None; tu_category := None;
            tu_priority := None; tu_status := None |}.
Proof.
  destruct body as [[a|] [b|] [c|] [p|] [s|]]; cbn;
    split; intros H; try discriminate H; reflexivity.
Qed.

(** X15: An update is refused with 400 exactly when the body sets no field; it
    is then refused before the table is looked at, so also for an id that does
    not exist, and nothing changes. *)
Theorem api_update_empty (i : Z) (body : TicketUpdate) app :
  body = {| tu_title := None; tu_description := None; tu_category := None;
            tu_priority := None; tu_status := None |}
  <-> update_ticket str_datetime i body app
      = (Ok (HTTPException 400 "No fields to update"), app).
Proof.
  rewrite <- not_none_items_nil. unfold update_ticket.
  destruct (not_none (items body)) as [|kv kvs] eqn:E.
  - split; [reflexivity | reflexivity].
  - split; [discriminate|]. intros H. exfalso. revert H.
    unfold in_db, zoom. unfold bind at 1.
    destruct (Db.update_ticket i (kv :: kvs) (db_manager app))
      as [[[t|]|e] d']; [|discriminate..].
    pose proof (ticket_response_state t
                  {| db_manager := d'; triager := triager app |}) as Hst.
    unfold bind.
    destruct (ticket_response str_datetime t _) as [[r|e] a]; discriminate.
Qed.


(** X17: An update of a stored ticket: the fields the body sets are changed,
    the others are kept, as are the id and the creation time; the triager is
    not consulted, so category and priority stay as they are unless the body
    sets them, whatever the new title or description; and [get_ticket] returns
    the same response afterwards. *)
Theorem api_update_fields (i : Z) (body : TicketUpdate) app
    (t : Ticket) (st : string) :
  Db.get_ticket i (db_manager app) = (Ok (Some t), db_manager app) ->
  status t = Some st ->
  body <> {| tu_title := None; tu_description := None; tu_category := None;
             tu_priority := None; tu_status := None |} ->
  exists (resp : TicketResponse) (app' : App matrix),
    update_ticket str_datetime i body app = (Ok (Reply resp), app')
    /\ triager app' = triager app
    /\ r_id resp = i
    /\ r_created_at resp = str_datetime (created_at t)
    /\ r_title resp = default (title t) (tu_title body)
    /\ r_description resp = default (description t) (tu_description body)
    /\ r_category resp = match tu_category body with
                         | Some c => Some c
                         | None => category t
                         end
    /\ r_priority resp = match tu_priority body with
                         | Some p => Some p
                         | None => priority t
                         end
    /\ r_status resp = default st (tu_status body)
    /\ get_ticket str_datetime i app' = (Ok (Reply resp), app').
Proof.
  intros Hget Hst Hbody. rewrite <- not_none_items_nil in Hbody.
  assert (query_first i (rows (db_manager app)) = Some t) as Hq.
  { unfold Db.get_ticket, bind, get, ret in Hget. congruence. }
  clear Hget. pose proof (DbFacts.query_first_id _ _ _ Hq) as Hid.
  destruct (setattrs_items t body) as (Ht & Hd & Hc & Hp & Hs).
  destruct (DbFacts.setattrs_id t (not_none (items body)))
    as (Hsid & Hsc & _).
  unfold update_ticket.
  destruct (not_none (items body)) as [|kv kvs] eqn:E; [congruence|].
  cbv iota. clear E Hbody. set (kw := kv :: kvs) in *. clearbody kw.
  clear kv kvs.
  unfold in_db, zoom. unfold bind at 1.
  rewrite (DbFacts.update_ticket_eval i _ _ t Hq). cbv zeta.
  destruct (same_columns t (setattrs t kw)) eqn:Esame.
  - apply DbFacts.same_columns_true in Esame as (Et & Ed & Ec & Ep & Es).
    destruct (ticket_response_fields t st
                {| db_manager := db_manager app; triager := triager app |}
                Hst)
      as (resp & Hresp & Hrid & Hrt & Hrd & Hrc & Hrp & Hrs & Hrca & _).
    exists resp, {| db_manager := db_manager app; triager := triager app |}.
    unfold bind at 1. rewrite Hresp. unfold ret at 1.
    split; [reflexivity|]. split; [reflexivity|].
    repeat (split; [congruence|]).
    split.
    { rewrite <- Es, Hst in Hs. destruct (tu_status body); simpl; congruence. }
    rewrite (get_ticket_found i t) by exact Hq.
    unfold bind. rewrite Hresp. reflexivity.
  - assert (status (setattrs t kw) = Some (default st (tu_status body)))
      as Hs'.
    { rewrite Hs, Hst. now destruct (tu_status body). }
    match goal with
    | |- context [bind (ticket_response _ ?row) _
                    {| db_manager := ?d'; triager := _ |}] =>
        destruct (ticket_response_fields row (default st (tu_status body))
                    {| db_manager := d'; triager := triager app |} Hs')
          as (resp & Hresp & Hrid & Hrt & Hrd & Hrc & Hrp & Hrs & Hrca & _);
        assert (query_first i (rows d') = Some row) as Hfound
          by (cbn [rows]; eapply DbFacts.query_first_replace_same;
              [cbn [id]; congruence | exact Hq]);
        pose proof (get_ticket_found i row
                      {| db_manager := d'; triager := triager app |} Hfound)
          as Hg;
        exists resp, {| db_manager := d'; triager := triager app |}
    end.
    unfold bind at 1. rewrite Hresp. unfold ret at 1.
    split; [reflexivity|]. split; [reflexivity|].
    cbn [id title description category priority created_at]
      in Hrid, Hrt, Hrd, Hrc, Hrp, Hrca.
    repeat (split; [congruence|]).
    rewrite Hg. unfold bind. rewrite Hresp. reflexivity.
Qed.

(** X18: Without a usable artifact ticket creation is never blocked: when the
    triager has no classifier or no vectorizer, [create_ticket] returns a
    response for every request, with the category as supplied or else
    "uncategorized", and does not touch the triager. *)
Theorem create_ticket_without_artifact req app :
  model (self (triager app)) = PyNone
  \/ vectorizer (self (triager app)) = PyNone ->
  exists (resp : TicketResponse) (app' : App matrix),
    create_ticket str_datetime req app = (Ok resp, app')
    /\ r_category resp = Some (default "uncategorized" (tc_category req))
    /\ (exists p : string,
          predict_priority (tc_title req +:+ " " +:+ tc_description req)
            (triager app) = (Ok p, triager app)
          /\ r_priority resp = Some (default p (tc_priority req)))
    /\ r_title resp = tc_title req
    /\ r_status resp = default "open" (tc_status req)
    /\ triager app' = triager app.
Proof.
  intros Hnone. destruct app as [db tr]. cbn [triager] in *.
  destruct (PriorityFacts.predict_priority_value (matrix := matrix)
              (tc_title req +:+ " " +:+ tc_description req)) as [pv Hpv].
  rewrite (ApiFacts.create_ticket_eval str_datetime req db tr pv Hpv).
  rewrite (predict_category_sentinel _ tr Hnone). cbn [fst].
  rewrite Hpv.
  assert (forall t : TicketCreate,
    bind (in_db (Db.create_ticket (tc_title t) (tc_description t)
                   (tc_category t) (tc_priority t) (tc_status t)))
         (ticket_response str_datetime)
         {| db_manager := db; triager := tr |}
    = (Ok {| r_id := next_id (rows db); r_title := tc_title t;
             r_description := tc_description t;
             r_category := tc_category t; r_priority := tc_priority t;
             r_status := default "open" (tc_status t);
             r_created_at := str_datetime (utc db (ticks db));
             r_updated_at := str_datetime (utc db (S (ticks db))) |},
       {| db_manager :=
            snd (Db.create_ticket (tc_title t) (tc_description t)
                   (tc_category t) (tc_priority t) (tc_status t) db);
          triager := tr |})) as Hstore by reflexivity.
  destruct (tc_category req) as [c|] eqn:Ec;
    destruct (tc_priority req) as [p|] eqn:Ep;
    cbn [is_None orb]; cbv beta iota; rewrite Hstore;
    do 2 eexists; (split; [reflexivity|]);
    cbn [r_category r_priority r_title r_status tc_category tc_priority
         tc_title tc_description tc_status default triager];
    rewrite ?Ec, ?Ep; cbn [default];
    repeat split; exists pv; split; reflexivity.
Qed.



(** X20: The triage endpoint only predicts: it echoes the title and the
    description next to the two predictions on their joined text, and leaves
    the table and the triager as they are; it raises exactly when the category
    prediction does. *)
Theorem triage_endpoint_stateless (ti de : string) app :
  match predict_category (ti +:+ " " +:+ de) (triager app) with
  | (Ok c, _) =>
      exists (p : string) (r : gmap string string),
        predict_priority (ti +:+ " " +:+ de) (triager app)
        = (Ok p, triager app)
        /\ triage_ticket_endpoint ti de app = (Ok r, app)
        /\ r !! "title" = Some ti
        /\ r !! "description" = Some de
        /\ r !! "predicted_category" = Some c
        /\ r !! "predicted_priority" = Some p
  | (Raise e, _) => triage_ticket_endpoint ti de app = (Raise e, app)
  end.
Proof.
  destruct app as [db tr]. cbn [triager].
  destruct (PriorityFacts.predict_priority_value (matrix := matrix)
              (ti +:+ " " +:+ de)) as [pv Hpv].
  pose proof (triage_ticket_eval ti de tr) as Htri. rewrite Hpv in Htri.
  cbn [fst] in Htri.
  destruct (predict_category (ti +:+ " " +:+ de) tr) as [[c|e] tr1];
    cbn [fst] in Htri;
    unfold triage_ticket_endpoint, in_triager, zoom; unfold bind at 1;
    cbn [triager db_manager]; rewrite Htri; [|reflexivity].
  exists pv. eexists. split; [apply Hpv|].
  unfold getitem, bind.
  rewrite lookup_insert_eq. unfold ret at 1.
  rewrite lookup_insert_ne by done. rewrite lookup_insert_eq.
  unfold ret at 1. split; [reflexivity|].
  repeat split;
    repeat (rewrite lookup_insert_ne by done); now rewrite lookup_insert_eq.
Qed.

End Handlers.

Lemma api_create_then_get_witness :
  let app := MoreSamples.sample_app Samples.empty_db in
  let resp := {| r_id := 1; r_title := "Printer";
                 r_description := "The printer is broken";
                 r_category := Some "uncategorized";
                 r_priority := Some "high"; r_status := "open";
                 r_created_at := "0"; r_updated_at := "1" |} in
  let app' := snd (create_ticket (fun z => pretty z)
                     (Samples.sample_request None None) app) in
  create_ticket (fun z => pretty z) (Samples.sample_request None None) app
  = (Ok resp, app')
  /\ get_ticket (fun z => pretty z) 1 app' = (Ok (Reply resp), app').
Proof.
  split; [reflexivity|].
  apply (api_create_then_get (fun z => pretty z)
           (Samples.sample_request None None)
           (MoreSamples.sample_app Samples.empty_db)
           {| r_id := 1; r_title := "Printer";
              r_description := "The printer is broken";
              r_category := Some "uncategorized";
              r_priority := Some "high"; r_status := "open";
              r_created_at := "0"; r_updated_at := "1" |}
           (snd (create_ticket (fun z => pretty z)
                   (Samples.sample_request None None)
                   (MoreSamples.sample_app Samples.empty_db)))).
  reflexivity.
Defined.



Lemma api_update_fields_witness :
  exists (resp : TicketResponse) (app' : App (list nat)),
    update_ticket (fun z => pretty z) 1 MoreSamples.sample_body
      (MoreSamples.sample_app MoreSamples.one_ticket_db)
    = (Ok (Reply resp), app')
    /\ r_title resp = "URGENT printer outage"
    /\ r_priority resp = Some "low"
    /\ r_category resp = Some "hardware"
    /\ r_status resp = "resolved".
Proof.
  destruct (api_update_fields (fun z => pretty z) 1 MoreSamples.sample_body
              (MoreSamples.sample_app MoreSamples.one_ticket_db)
              MoreSamples.stored_ticket "open" eq_refl eq_refl)
    as (resp & app' & Hrun & _ & _ & _ & Ht & _ & Hc & Hp & Hs & _).
  { discriminate. }
  exists resp, app'. repeat split; assumption.
Defined.

Lemma create_ticket_without_artifact_witness :
  exists (resp : TicketResponse) (app' : App (list nat)),
    create_ticket (fun z => pretty z) (Samples.sample_request None None)
      (MoreSamples.sample_app Samples.empty_db) = (Ok resp, app')
    /\ r_category resp = Some "uncategorized".
Proof.
  destruct (create_ticket_without_artifact (fun z => pretty z)
              (Samples.sample_request None None)
              (MoreSamples.sample_app Samples.empty_db))
    as (resp & app' & Hrun & Hc & _).
  { left. reflexivity. }
  exists resp, app'. split; assumption.
Defined.


End ApiMore.
